(** * Threat-intelligence aggregation pipeline (app.py): a shallow embedding

    The pipeline of [app.py] is embedded as explicit state passing over an
    abstract world: every call to a collaborator (the HTTP library, the
    classifier, the alert manager, the report store, the dashboard) consumes
    the current world, may raise, and is recorded in a trace of events.

    Modelling conventions.
    - Python values are the [pyval] type; JSON numbers are integers or
      floats; a [dict] is an association list in insertion order, as Python
      dictionaries are.
    - Exceptions are the values of [exn], all of them instances of Python's
      [Exception]: on these a bare [except:] and [except Exception] agree.
      Interrupts and the dashboard's script-control signals, which derive
      from [BaseException] only, end the run from outside and are not
      modelled.
    - Collaborators read the report they are handed and do not mutate it;
      dashboard and console output is recorded and does not raise. *)

From Stdlib Require Import ZArith String List Bool Lia.
From Stdlib Require Import Floats.PrimFloat.
From Stdlib Require Import Ascii.
Import ListNotations.
Open Scope string_scope.
Open Scope Z_scope.
Open Scope list_scope.

Set Implicit Arguments.

(** ** Python values *)

#[warnings="-register-all"] Inductive pyval : Type :=
| PNone
| PBool (b : bool)
| PInt (z : Z)
| PFloat (f : float)
| PStr (s : string)
| PList (l : list pyval)
| PDict (d : list (string * pyval)).

Definition dict : Type := list (string * pyval).

Inductive exn : Type :=
| KeyError (k : string)
| AttributeError
| TypeError
| OtherError (msg : string).

Inductive result (A : Type) : Type :=
| Ok (a : A)
| Raise (e : exn).

Arguments Ok {A} a.
Arguments Raise {A} e.

(** ** Dictionaries *)

Module Dict.

(** [k in d], [d[k]] read as an option. *)
Fixpoint lookup (k : string) (d : dict) : option pyval :=
  match d with
  | [] => None
  | (k', v) :: rest => if String.eqb k k' then Some v else lookup k rest
  end.

(** [d.get(k, default)] *)
Definition get (d : dict) (k : string) (default : pyval) : pyval :=
  match lookup k d with
  | Some v => v
  | None => default
  end.

(** [d[k] = v]: an existing key keeps its position, a new key goes last. *)
Fixpoint set (d : dict) (k : string) (v : pyval) : dict :=
  match d with
  | [] => [(k, v)]
  | (k', v') :: rest =>
      if String.eqb k k' then (k', v) :: rest else (k', v') :: set rest k v
  end.

Definition keys (d : dict) : list string := map fst d.
Definition values (d : dict) : list pyval := map snd d.

End Dict.

(** ** Operators on Python values *)

Definition str_truthy (s : string) : bool :=
  match s with
  | EmptyString => false
  | String _ _ => true
  end.

(** [bool(v)] *)
Definition py_truthy (v : pyval) : bool :=
  match v with
  | PNone => false
  | PBool b => b
  | PInt z => negb (z =? 0)
  | PFloat f => negb (PrimFloat.eqb f 0%float)
  | PStr s => str_truthy s
  | PList l => match l with [] => false | _ :: _ => true end
  | PDict d => match d with [] => false | _ :: _ => true end
  end.

(** [a or b] *)
Definition py_or (a b : pyval) : pyval := if py_truthy a then a else b.

(** [v > 0]; ordering against an integer is defined for numbers only. *)
Definition py_gt0 (v : pyval) : result bool :=
  match v with
  | PBool b => Ok b
  | PInt z => Ok (0 <? z)
  | PFloat f => Ok (PrimFloat.ltb 0%float f)
  | PNone | PStr _ | PList _ | PDict _ => Raise TypeError
  end.

(** [v.get(k, default)]: only dictionaries have a [get] attribute. *)
Definition py_get (v : pyval) (k : string) (default : pyval) : result pyval :=
  match v with
  | PDict d => Ok (Dict.get d k default)
  | _ => Raise AttributeError
  end.

(** [v[k]] with a string key. *)
Definition py_subscript (v : pyval) (k : string) : result pyval :=
  match v with
  | PDict d =>
      match Dict.lookup k d with
      | Some x => Ok x
      | None => Raise (KeyError k)
      end
  | _ => Raise TypeError
  end.

(** Credentials are [None] or a string; the empty string is falsy. *)
Definition key_truthy (k : option string) : bool :=
  match k with
  | Some s => str_truthy s
  | None => false
  end.

(** An adapter returns [None] or a dictionary. *)
Definition report_truthy (r : option dict) : bool :=
  match r with
  | Some d => py_truthy (PDict d)
  | None => false
  end.

(** ** Providers *)

Inductive provider : Type := VirusTotal | AbuseIPDB | AlienVaultOTX.

Definition provider_name (p : provider) : string :=
  match p with
  | VirusTotal => "VirusTotal"
  | AbuseIPDB => "AbuseIPDB"
  | AlienVaultOTX => "AlienVault OTX"
  end.

(** [api_key_env_map] *)
Definition api_key_env_map (p : provider) : string :=
  match p with
  | VirusTotal => "VT_API_KEY"
  | AbuseIPDB => "ABUSEIPDB_API_KEY"
  | AlienVaultOTX => "OTX_API_KEY"
  end.

(** The selectbox value [api_choice]. *)
Inductive choice : Type :=
| HybridFallback
| Single (p : provider).

(** ** Collaborators, events and the pipeline monad *)

Record response : Type := {
  status_code : Z;
  json : result pyval   (* [resp.json()], which raises on a body that is not JSON *)
}.

Inductive log_line : Type :=
| AlertSentLine (ip : pyval)
| AlertFailedLine (ip : pyval) (e : exn)
| ProcessingErrorLine (ip : string) (e : exn).

Inductive event : Type :=
| EvHttpGet (p : provider) (ip : string) (key : option string)
| EvPredict (features : dict)
| EvCheckAlerts (report : dict)
| EvSendEmail (ip : pyval) (report : dict)
| EvSaveReport (report : dict)
| EvStSuccess (ip : pyval)
| EvStError (ip : pyval)
| EvPrint (l : log_line).

Record collaborators (World : Type) : Type := {
  (* [requests.get] against the provider's endpoint *)
  requests_get : provider -> string -> option string -> World -> result response * World;
  (* [os.getenv] *)
  getenv : string -> option string;
  (* [rf_model.predict(features_df)[0]] *)
  rf_predict : dict -> World -> result pyval * World;
  (* [alert_manager.check_alerts] *)
  check_alerts : dict -> World -> result unit * World;
  (* [alert_manager.send_email_alert] *)
  send_email_alert : pyval -> dict -> World -> result unit * World;
  (* [db_manager.save_report] *)
  save_report : dict -> World -> result unit * World
}.

Record state (World : Type) : Type := {
  world : World;
  trace : list event
}.

Definition M (World A : Type) : Type := state World -> result A * state World.

Definition ret {World A : Type} (a : A) : M World A := fun s => (Ok a, s).

Definition bind {World A B : Type} (m : M World A) (k : A -> M World B) : M World B :=
  fun s =>
    match m s with
    | (Ok a, s') => k a s'
    | (Raise e, s') => (Raise e, s')
    end.

Definition lift {World A : Type} (r : result A) : M World A := fun s => (r, s).

(** [try: body / except: handler] and [except Exception as e: handler]; what
    the body did before raising stays done. *)
Definition try_except {World A : Type} (body : M World A) (handler : exn -> M World A)
  : M World A :=
  fun s =>
    match body s with
    | (Ok a, s') => (Ok a, s')
    | (Raise e, s') => handler e s'
    end.

(** A call to a collaborator: recorded, then answered by the world. *)
Definition call {World A : Type} (ev : event) (f : World -> result A * World)
  : M World A :=
  fun s =>
    let (r, w') := f (world s) in
    (r, {| world := w'; trace := trace s ++ [ev] |}).

(** Dashboard and console output. *)
Definition emit {World : Type} (ev : event) : M World unit :=
  fun s => (Ok tt, {| world := world s; trace := trace s ++ [ev] |}).

Declare Scope py_scope.
Delimit Scope py_scope with py.
Notation "x <- c ;; k" := (bind c (fun x => k))
  (at level 61, c at next level, right associativity) : py_scope.
Notation "c ;;; k" := (bind c (fun _ => k))
  (at level 61, right associativity) : py_scope.
Open Scope py_scope.

(** ** The program *)

Section Pipeline.

Context {World : Type}.
Variable env : collaborators World.

Local Notation "'Py'" := (M World).

(** [requests.get(url, headers=...)]: one outbound request. *)
Definition http_get (p : provider) (ip : string) (key : option string) : Py response :=
  call (EvHttpGet p ip key) (requests_get env p ip key).

(** Lines 60-75. *)
Definition get_virustotal (ip : string) (key : option string) : Py (option dict) :=
  resp <- http_get VirusTotal ip key ;;
  if status_code resp =? 200 then
    body <- lift (json resp) ;;
    envelope <- lift (py_get body "data" (PDict [])) ;;
    data <- lift (py_get envelope "attributes" (PDict [])) ;;
    country <- lift (py_get data "country" (PStr "N/A")) ;;
    asn <- lift (py_get data "asn" (PStr "N/A")) ;;
    stats <- lift (py_get data "last_analysis_stats" (PDict [])) ;;
    malicious <- lift (py_get stats "malicious" (PInt 0)) ;;
    stats' <- lift (py_get data "last_analysis_stats" (PDict [])) ;;
    suspicious <- lift (py_get stats' "suspicious" (PInt 0)) ;;
    ret (Some [ ("IP", PStr ip);
                ("Country", country);
                ("ASN", asn);
                ("Malicious", malicious);
                ("Suspicious", suspicious);
                ("Abuse Confidence", PInt 0);
                ("Reputation", PInt 0);
                ("Source", PStr "VirusTotal") ])
  else ret None.

(** Lines 77-93. *)
Definition get_abuseipdb (ip : string) (key : option string) : Py (option dict) :=
  resp <- http_get AbuseIPDB ip key ;;
  if status_code resp =? 200 then
    body <- lift (json resp) ;;
    data <- lift (py_subscript body "data") ;;
    country <- lift (py_get data "countryCode" (PStr "N/A")) ;;
    isp <- lift (py_get data "isp" (PStr "N/A")) ;;
    abuse <- lift (py_get data "abuseConfidenceScore" (PInt 0)) ;;
    ret (Some [ ("IP", PStr ip);
                ("Country", country);
                ("ISP", isp);
                ("Malicious", PInt 0);
                ("Suspicious", PInt 0);
                ("Abuse Confidence", abuse);
                ("Reputation", PInt 0);
                ("Source", PStr "AbuseIPDB") ])
  else ret None.

(** Lines 95-109. *)
Definition get_otx (ip : string) (key : option string) : Py (option dict) :=
  resp <- http_get AlienVaultOTX ip key ;;
  if status_code resp =? 200 then
    data <- lift (json resp) ;;
    country <- lift (py_get data "country_name" (PStr "N/A")) ;;
    reputation <- lift (py_get data "reputation" (PInt 0)) ;;
    ret (Some [ ("IP", PStr ip);
                ("Country", country);
                ("Malicious", PInt 0);
                ("Suspicious", PInt 0);
                ("Abuse Confidence", PInt 0);
                ("Reputation", reputation);
                ("Source", PStr "AlienVault OTX") ])
  else ret None.

Definition api_function_map (p : provider)
  : string -> option string -> Py (option dict) :=
  match p with
  | VirusTotal => get_virustotal
  | AbuseIPDB => get_abuseipdb
  | AlienVaultOTX => get_otx
  end.

(** Lines 117-139, [get_hybrid_report]: the two local dictionaries and the
    loop over [functions.items()]; [returned] is the value of the [return]
    statement when the iteration reaches it. *)
Definition fallback_keys (name : provider) : option string :=
  getenv env (api_key_env_map name).

Definition functions : list provider := [VirusTotal; AbuseIPDB; AlienVaultOTX].

Definition key_to_use (manual_key : option string) (name : provider) : option string :=
  if key_truthy manual_key then manual_key else fallback_keys name.

Fixpoint hybrid_loop (items : list provider) (ip : string) (manual_key : option string)
  : Py (option dict) :=
  match items with
  | [] => ret None
  | name :: rest =>
      if key_truthy (key_to_use manual_key name) then
        returned <-
          try_except
            (result <- api_function_map name ip (key_to_use manual_key name) ;;
             if report_truthy result then
               match result with
               | Some d => ret (Some (Dict.set d "Source" (PStr (provider_name name))))
               | None => ret None
               end
             else ret None)
            (fun _ => ret None) ;;
        match returned with
        | Some r => ret (Some r)
        | None => hybrid_loop rest ip manual_key
        end
      else hybrid_loop rest ip manual_key
  end.

Definition get_hybrid_report (ip : string) (manual_key : option string)
  : Py (option dict) :=
  hybrid_loop functions ip manual_key.

(** [run_analysis], lines 154-159: the one-row frame handed to the classifier,
    column by column. *)
Definition extract (report : dict) : dict :=
  [ ("Malicious", py_or (Dict.get report "Malicious" (PInt 0)) (PInt 0));
    ("Suspicious", py_or (Dict.get report "Suspicious" (PInt 0)) (PInt 0));
    ("Abuse Confidence", py_or (Dict.get report "Abuse Confidence" (PInt 0)) (PInt 0));
    ("Reputation", py_or (Dict.get report "Reputation" (PInt 0)) (PInt 0)) ].

(** Lines 161-165: the guarded model invocation. *)
Definition classify (report features_df : dict) : Py dict :=
  try_except
    (risk <- call (EvPredict features_df) (rf_predict env features_df) ;;
     ret (Dict.set report "AI Risk" risk))
    (fun _ => ret (Dict.set report "AI Risk" (PStr "Error"))).

(** Line 169: the condition under which the e-mail alert is sent; [or] does
    not evaluate its right operand when the left one is true. *)
Definition should_alert (report : dict) : result bool :=
  match py_gt0 (Dict.get report "Abuse Confidence" (PInt 0)) with
  | Ok true => Ok true
  | Ok false => py_gt0 (Dict.get report "Malicious" (PInt 0))
  | Raise e => Raise e
  end.

(** [report['IP']] *)
Definition report_ip (report : dict) : Py pyval :=
  lift (py_subscript (PDict report) "IP").

(** Lines 167-175: the guarded alert block. *)
Definition alert (report : dict) : Py unit :=
  try_except
    (call (EvCheckAlerts report) (check_alerts env report) ;;;
     fire <- lift (should_alert report) ;;
     if (fire : bool) then
       ip <- report_ip report ;;
       emit (EvStSuccess ip) ;;;
       ip <- report_ip report ;;
       call (EvSendEmail ip report) (send_email_alert env ip report) ;;;
       ip <- report_ip report ;;
       emit (EvPrint (AlertSentLine ip))
     else ret tt)
    (fun e =>
       ip <- report_ip report ;;
       emit (EvStError ip) ;;;
       ip <- report_ip report ;;
       emit (EvPrint (AlertFailedLine ip e))).

Variable api_choice : choice.
Variable user_api_key : string.

(** Lines 145-149: the report for one address, by the selected mode. *)
Definition resolve (ip : string) : Py (option dict) :=
  match api_choice with
  | HybridFallback => get_hybrid_report ip (Some user_api_key)
  | Single p =>
      let key := if str_truthy user_api_key then Some user_api_key
                 else getenv env (api_key_env_map p) in
      api_function_map p ip key
  end.

(** Lines 145-178: the body of the per-address [try]; it yields the result
    list as the iteration leaves it. *)
Definition process_ip (ip : string) (results : list dict) : Py (list dict) :=
  fetched <- resolve ip ;;
  if negb (report_truthy fetched) then ret results
  else
    match fetched with
    | Some report =>
        report <- classify report (extract report) ;;
        alert report ;;;
        call (EvSaveReport report) (save_report env report) ;;;
        ret (results ++ [report])
    | None => ret results
    end.

(** Lines 142-182: the loop over [ip_list], with [results] as it grows. *)
Fixpoint run_loop (ip_list : list string) (results : list dict) : Py (list dict) :=
  match ip_list with
  | [] => ret results
  | ip :: rest =>
      results' <-
        try_except (process_ip ip results)
                   (fun e => emit (EvPrint (ProcessingErrorLine ip e)) ;;; ret results) ;;
      run_loop rest results'
  end.

Definition run_analysis (ip_list : list string) : Py (list dict) :=
  run_loop ip_list [].

End Pipeline.

(** ** Vocabulary of the statements *)

(** The classifier's columns, in the order it expects them. *)
Definition feature_names : list string :=
  ["Malicious"; "Suspicious"; "Abuse Confidence"; "Reputation"].

(** The value found in a payload by following keys through nested objects. *)
Fixpoint path_lookup (path : list string) (v : pyval) : option pyval :=
  match path with
  | [] => Some v
  | k :: rest =>
      match v with
      | PDict d =>
          match Dict.lookup k d with
          | Some x => path_lookup rest x
          | None => None
          end
      | _ => None
      end
  end.

(** The payload fields each adapter copies: where the field sits in the
    payload, the report key it fills, and the default of that key. *)
Definition provider_fields (p : provider) : list (list string * string * pyval) :=
  match p with
  | VirusTotal =>
      [ (["data"; "attributes"; "country"], "Country", PStr "N/A");
        (["data"; "attributes"; "asn"], "ASN", PStr "N/A");
        (["data"; "attributes"; "last_analysis_stats"; "malicious"], "Malicious", PInt 0);
        (["data"; "attributes"; "last_analysis_stats"; "suspicious"], "Suspicious", PInt 0) ]
  | AbuseIPDB =>
      [ (["data"; "countryCode"], "Country", PStr "N/A");
        (["data"; "isp"], "ISP", PStr "N/A");
        (["data"; "abuseConfidenceScore"], "Abuse Confidence", PInt 0) ]
  | AlienVaultOTX =>
      [ (["country_name"], "Country", PStr "N/A");
        (["reputation"], "Reputation", PInt 0) ]
  end.

Definition is_object (v : pyval) : bool :=
  match v with
  | PDict _ => true
  | _ => false
  end.

(** A nested container that is missing, or present as an object. *)
Definition object_or_missing (path : list string) (body : pyval) : bool :=
  match path_lookup path body with
  | Some v => is_object v
  | None => true
  end.

(** A nested container that is present as an object. *)
Definition object_present (path : list string) (body : pyval) : bool :=
  match path_lookup path body with
  | Some v => is_object v
  | None => false
  end.

(** The payloads on which an adapter reads every container it walks through. *)
Definition payload_walkable (p : provider) (body : pyval) : bool :=
  match p with
  | VirusTotal =>
      is_object body
      && object_or_missing ["data"] body
      && object_or_missing ["data"; "attributes"] body
      && object_or_missing ["data"; "attributes"; "last_analysis_stats"] body
  | AbuseIPDB => object_present ["data"] body
  | AlienVaultOTX => is_object body
  end.

(** The providers an event list shows as called, in call order. *)
Fixpoint providers_called (tr : list event) : list provider :=
  match tr with
  | [] => []
  | EvHttpGet p _ _ :: rest => p :: providers_called rest
  | _ :: rest => providers_called rest
  end.

(** The outbound requests of an event list, in call order. *)
Fixpoint http_requests (tr : list event) : list (provider * string * option string) :=
  match tr with
  | [] => []
  | EvHttpGet p ip k :: rest => (p, ip, k) :: http_requests rest
  | _ :: rest => http_requests rest
  end.

(** What the hybrid loop takes from an adapter call: the dictionary it
    returns when that is truthy, nothing when the call raises or returns
    [None]. *)
Definition usable (r : result (option dict)) : option dict :=
  match r with
  | Ok (Some d) => if report_truthy (Some d) then Some d else None
  | _ => None
  end.

(** The providers for which [key_to_use] is truthy, in the order of [items]. *)
Definition resolvable {World : Type} (env : collaborators World)
    (manual_key : option string) (items : list provider) : list provider :=
  filter (fun name => key_truthy (key_to_use env manual_key name)) items.

(** Calling the adapters of [names] one after the other, from state [s] to
    state [s'], none of the calls giving a usable report. *)
Inductive fell_through {World : Type} (env : collaborators World) (ip : string)
    (manual_key : option string)
  : list provider -> state World -> state World -> Prop :=
| ft_done : forall s, fell_through env ip manual_key [] s s
| ft_next : forall name names s s',
    usable (fst (api_function_map env name ip (key_to_use env manual_key name) s)) = None ->
    fell_through env ip manual_key names
      (snd (api_function_map env name ip (key_to_use env manual_key name) s)) s' ->
    fell_through env ip manual_key (name :: names) s s'.

(** [l1] is [l2] with some elements left out, the order kept. *)
Inductive subseq {A : Type} : list A -> list A -> Prop :=
| subseq_nil : subseq [] []
| subseq_skip : forall x l1 l2, subseq l1 l2 -> subseq l1 (x :: l2)
| subseq_keep : forall x l1 l2, subseq l1 l2 -> subseq (x :: l1) (x :: l2).

(** ** Sample collaborators, for closed instances of the theorems *)

Module Sample.

(** Collaborators without memory: each answer depends on the arguments only. *)
Definition stateless
  (http : provider -> string -> option string -> result response)
  (vars : string -> option string)
  (model : dict -> result pyval)
  (store : dict -> result unit) : collaborators unit :=
  {| requests_get := fun p ip k w => (http p ip k, w);
     getenv := vars;
     rf_predict := fun f w => (model f, w);
     check_alerts := fun _ w => (Ok tt, w);
     send_email_alert := fun _ _ w => (Ok tt, w);
     save_report := fun r w => (store r, w) |}.

Definition start : state unit := {| world := tt; trace := [] |}.

Definition ok200 (body : pyval) : result response :=
  Ok {| status_code := 200; json := Ok body |}.

Definition no_vars : string -> option string := fun _ => None.

(** VirusTotal answers [{"data": null}]; AbuseIPDB answers [{}]. *)
Definition malformed_http (p : provider) (ip : string) (k : option string)
  : result response :=
  match p with
  | VirusTotal => ok200 (PDict [("data", PNone)])
  | AbuseIPDB => ok200 (PDict [])
  | AlienVaultOTX => Ok {| status_code := 404; json := Raise (OtherError "not json") |}
  end.

Definition malformed_env : collaborators unit :=
  stateless malformed_http no_vars (fun _ => Ok (PStr "Low")) (fun _ => Ok tt).

(** VirusTotal answers with three malicious and one suspicious verdict. *)
Definition vt_body : pyval :=
  PDict [("data", PDict [("attributes",
            PDict [("last_analysis_stats",
                     PDict [("malicious", PInt 3); ("suspicious", PInt 1)])])])].

Definition vt_http (p : provider) (ip : string) (k : option string)
  : result response :=
  match p with
  | VirusTotal => ok200 vt_body
  | _ => Raise (OtherError "connection refused")
  end.

Definition vt_env : collaborators unit :=
  stateless vt_http no_vars (fun _ => Ok (PStr "High")) (fun _ => Ok tt).

(** The report [get_virustotal] builds from [vt_body] for 8.8.8.8. *)
Definition vt_report : dict :=
  [ ("IP", PStr "8.8.8.8"); ("Country", PStr "N/A"); ("ASN", PStr "N/A");
    ("Malicious", PInt 3); ("Suspicious", PInt 1); ("Abuse Confidence", PInt 0);
    ("Reputation", PInt 0); ("Source", PStr "VirusTotal") ].

(** As [vt_env], with a model that raises on every frame. *)
Definition broken_model_env : collaborators unit :=
  stateless vt_http no_vars (fun _ => Raise (OtherError "shape mismatch"))
            (fun _ => Ok tt).

(** VirusTotal times out, AbuseIPDB answers with a score of 80, and OTX
    would answer too. *)
Definition fallback_http (p : provider) (ip : string) (k : option string)
  : result response :=
  match p with
  | VirusTotal => Raise (OtherError "timeout")
  | AbuseIPDB =>
      ok200 (PDict [("data", PDict [("countryCode", PStr "NL");
                                    ("abuseConfidenceScore", PInt 80)])])
  | AlienVaultOTX => ok200 (PDict [("reputation", PInt (-2))])
  end.

Definition fallback_env : collaborators unit :=
  stateless fallback_http no_vars (fun _ => Ok (PStr "High")) (fun _ => Ok tt).

(** A world that counts requests: the first request of the run times out,
    every later one gets the VirusTotal answer [vt_body]. *)
Definition flaky_env : collaborators nat :=
  {| requests_get := fun _ _ _ n =>
       (match n with
        | O => Raise (OtherError "timeout")
        | S _ => ok200 vt_body
        end, S n);
     getenv := no_vars;
     rf_predict := fun _ n => (Ok (PStr "High"), n);
     check_alerts := fun _ n => (Ok tt, n);
     send_email_alert := fun _ _ n => (Ok tt, n);
     save_report := fun _ n => (Ok tt, n) |}.

End Sample.

(** ** Further vocabulary: report shapes and what a trace records *)

(** The keys of the dictionary literal each adapter returns, in order. *)
Definition report_keys (p : provider) : list string :=
  match p with
  | VirusTotal =>
      ["IP"; "Country"; "ASN"; "Malicious"; "Suspicious"; "Abuse Confidence";
       "Reputation"; "Source"]
  | AbuseIPDB =>
      ["IP"; "Country"; "ISP"; "Malicious"; "Suspicious"; "Abuse Confidence";
       "Reputation"; "Source"]
  | AlienVaultOTX =>
      ["IP"; "Country"; "Malicious"; "Suspicious"; "Abuse Confidence";
       "Reputation"; "Source"]
  end.

(** The signals an adapter always reports as the integer 0. *)
Definition silent_signals (p : provider) : list string :=
  match p with
  | VirusTotal => ["Abuse Confidence"; "Reputation"]
  | AbuseIPDB => ["Malicious"; "Suspicious"; "Reputation"]
  | AlienVaultOTX => ["Malicious"; "Suspicious"; "Abuse Confidence"]
  end.

(** The reports handed to [save_report], in call order. *)
Fixpoint saved_reports (tr : list event) : list dict :=
  match tr with
  | [] => []
  | EvSaveReport r :: rest => r :: saved_reports rest
  | _ :: rest => saved_reports rest
  end.

(** The calls to [send_email_alert], in call order. *)
Fixpoint emails_sent (tr : list event) : list (pyval * dict) :=
  match tr with
  | [] => []
  | EvSendEmail ip r :: rest => (ip, r) :: emails_sent rest
  | _ :: rest => emails_sent rest
  end.

(** The frames handed to the classifier, in call order. *)
Fixpoint frames_classified (tr : list event) : list dict :=
  match tr with
  | [] => []
  | EvPredict f :: rest => f :: frames_classified rest
  | _ :: rest => frames_classified rest
  end.

(** The event that records a request. *)
Definition req_event (r : provider * string * option string) : event :=
  EvHttpGet (fst (fst r)) (snd (fst r)) (snd r).

(** The requests one address may cause: one request to the selected provider
    in direct mode; in hybrid mode one request to each provider of an initial
    segment of those with a credential. *)
Definition requests_allowed {World : Type} (env : collaborators World)
    (api_choice : choice) (user_api_key : string) (ip : string)
    (reqs : list (provider * string * option string)) : Prop :=
  match api_choice with
  | Single p =>
      reqs = [(p, ip, if str_truthy user_api_key then Some user_api_key
                      else getenv env (api_key_env_map p))]
  | HybridFallback =>
      exists called later,
        reqs = map (fun p => (p, ip, key_to_use env (Some user_api_key) p)) called
        /\ resolvable env (Some user_api_key) functions = called ++ later
  end.

(** A dictionary with the shape of provider [p]'s reports about [ip]. *)
Definition report_of (p : provider) (ip : string) (d : dict) : Prop :=
  Dict.keys d = report_keys p
  /\ Dict.lookup "IP" d = Some (PStr ip)
  /\ Dict.lookup "Source" d = Some (PStr (provider_name p))
  /\ Forall (fun k => Dict.lookup k d = Some (PInt 0)) (silent_signals p).

Definition selected (api_choice : choice) (p : provider) : Prop :=
  match api_choice with
  | Single q => p = q
  | HybridFallback => True
  end.

(** What the processing of one address leaves behind: the reports [added] to
    the result list and the events [evs] recorded. *)
Inductive contribution {World : Type} (env : collaborators World)
    (api_choice : choice) (user_api_key : string) (ip : string)
  : list dict -> list event -> Prop :=
| contributes_nothing : forall evs,
    requests_allowed env api_choice user_api_key ip (http_requests evs) ->
    saved_reports evs = [] ->
    frames_classified evs = [] ->
    emails_sent evs = [] ->
    contribution env api_choice user_api_key ip [] evs
| contributes_report : forall p report label added evs,
    requests_allowed env api_choice user_api_key ip (http_requests evs) ->
    selected api_choice p ->
    report_of p ip report ->
    saved_reports evs = [Dict.set report "AI Risk" label] ->
    frames_classified evs = [extract report] ->
    emails_sent evs = []
    \/ (emails_sent evs = [(PStr ip, Dict.set report "AI Risk" label)]
        /\ should_alert (Dict.set report "AI Risk" label) = Ok true) ->
    added = [] \/ added = [Dict.set report "AI Risk" label] ->
    contribution env api_choice user_api_key ip added evs.

Module Scenario.

(** The report [get_abuseipdb] builds from the answer of
    [Sample.fallback_http] for 1.2.3.4. *)
Definition abuse_report : dict :=
  [ ("IP", PStr "1.2.3.4"); ("Country", PStr "NL"); ("ISP", PStr "N/A");
    ("Malicious", PInt 0); ("Suspicious", PInt 0); ("Abuse Confidence", PInt 80);
    ("Reputation", PInt 0); ("Source", PStr "AbuseIPDB") ].

(** The state after VirusTotal and AbuseIPDB were asked about 1.2.3.4. *)
Definition after_fallback : state unit :=
  {| world := tt;
     trace := [EvHttpGet VirusTotal "1.2.3.4" (Some "k");
               EvHttpGet AbuseIPDB "1.2.3.4" (Some "k")] |}.

(** As [Sample.vt_env], with an alert manager whose two calls raise. *)
Definition mail_down_env : collaborators unit :=
  {| requests_get := fun p ip k w => (Sample.vt_http p ip k, w);
     getenv := Sample.no_vars;
     rf_predict := fun _ w => (Ok (PStr "High"), w);
     check_alerts := fun _ w => (Raise (OtherError "no thresholds"), w);
     send_email_alert := fun _ _ w => (Raise (OtherError "smtp down"), w);
     save_report := fun _ w => (Ok tt, w) |}.

(** VirusTotal knows 2.2.2.2 only, AbuseIPDB knows nothing, OTX answers for
    every address. *)
Definition mixed_http (p : provider) (ip : string) (k : option string)
  : result response :=
  match p with
  | VirusTotal =>
      if String.eqb ip "2.2.2.2" then Sample.ok200 Sample.vt_body
      else Ok {| status_code := 404; json := Ok (PDict []) |}
  | AbuseIPDB => Ok {| status_code := 404; json := Ok (PDict []) |}
  | AlienVaultOTX => Sample.ok200 (PDict [("reputation", PInt 1)])
  end.

Definition mixed_env : collaborators unit :=
  Sample.stateless mixed_http Sample.no_vars (fun _ => Ok (PStr "Low")) (fun _ => Ok tt).

End Scenario.

(** ** Around the pipeline: the input list, the session flag, the CSV export *)

Module Text.

(** A Python string is read as the list of its code points; the strings
    modelled here have all their code points below 256. *)
Definition code (c : ascii) : N := N_of_ascii c.

(** The line boundaries of [str.splitlines]: LF, VT, FF, CR, FS, GS, RS, NEL. *)
Definition is_linebreak (c : ascii) : bool :=
  existsb (N.eqb (code c)) [10; 11; 12; 13; 28; 29; 30; 133]%N.

(** The whitespace of [str.strip]: TAB to CR, FS to US, space, NEL, NBSP. *)
Definition is_space (c : ascii) : bool :=
  existsb (N.eqb (code c)) [9; 10; 11; 12; 13; 28; 29; 30; 31; 32; 133; 160]%N.

(** [str.splitlines()], with [line] the characters read since the last
    boundary; CR LF is one boundary, and a final boundary opens no new line. *)
Fixpoint splitlines_from (line s : string) : list string :=
  match s with
  | EmptyString =>
      match line with
      | EmptyString => []
      | String _ _ => [line]
      end
  | String c rest =>
      if is_linebreak c then
        line :: match rest with
                | String c' rest' =>
                    if (code c =? 13)%N && (code c' =? 10)%N
                    then splitlines_from EmptyString rest'
                    else splitlines_from EmptyString rest
                | EmptyString => splitlines_from EmptyString rest
                end
      else splitlines_from (String.append line (String c EmptyString)) rest
  end.

Definition splitlines (s : string) : list string := splitlines_from EmptyString s.

Fixpoint lstrip (s : string) : string :=
  match s with
  | EmptyString => EmptyString
  | String c rest => if is_space c then lstrip rest else s
  end.

Fixpoint rstrip (s : string) : string :=
  match s with
  | EmptyString => EmptyString
  | String c rest =>
      match rstrip rest with
      | EmptyString => if is_space c then EmptyString else String c EmptyString
      | String _ _ as kept => String c kept
      end
  end.

(** [str.strip()] *)
Definition strip (s : string) : string := rstrip (lstrip s).

(** [sep.join(parts)] *)
Fixpoint join (sep : string) (parts : list string) : string :=
  match parts with
  | [] => EmptyString
  | [part] => part
  | part :: rest => String.append part (String.append sep (join sep rest))
  end.

End Text.

(** [l[:n]]: a negative bound counts from the end. *)
Definition py_slice_to {A : Type} (l : list A) (n : Z) : list A :=
  if 0 <=? n then firstn (Z.to_nat n) l
  else firstn (length l - Z.to_nat (- n)) l.

(** Lines 54 and 57: [[ip.strip() for ip in lines if ip.strip()]]. *)
Definition stripped_lines (lines : list string) : list string :=
  map Text.strip (filter (fun ip => str_truthy (Text.strip ip)) lines).

(** Lines 52-58: the address list, from the text area [ip_input], else from
    the uploaded file, cut to [limit] entries. [uploaded_file] is [None], or
    the outcome of [uploaded_file.read().decode("utf-8")]: the text of the
    file, or the exception of the decoder. *)
Definition read_ip_list (ip_input : string) (uploaded_file : option (result string))
    (limit : Z) : result (list string) :=
  let ip_list :=
    if str_truthy ip_input then Ok (stripped_lines (Text.splitlines ip_input))
    else
      match uploaded_file with
      | Some (Ok content) => Ok (stripped_lines (Text.splitlines content))
      | Some (Raise e) => Raise e
      | None => Ok []
      end in
  match ip_list with
  | Ok ip_list => Ok (py_slice_to ip_list limit)
  | Raise e => Raise e
  end.

(** Lines 24-25: the flag is created when the session does not have it. *)
Definition init_session (session_state : dict) : dict :=
  match Dict.lookup "fetch_triggered" session_state with
  | None => Dict.set session_state "fetch_triggered" (PBool false)
  | Some _ => session_state
  end.

(** Lines 27-28, the callback of the submit button. *)
Definition trigger_fetch (session_state : dict) : dict :=
  Dict.set session_state "fetch_triggered" (PBool true).

(** Line 219: [if st.session_state.fetch_triggered]. *)
Definition fetch_triggered (session_state : dict) : result bool :=
  match Dict.lookup "fetch_triggered" session_state with
  | Some v => Ok (py_truthy v)
  | None => Raise AttributeError
  end.

(** What touches the flag: a run of the script, a press of the button. *)
Inductive session_event : Type := ScriptRun | ButtonPress.

Definition session_step (session_state : dict) (ev : session_event) : dict :=
  match ev with
  | ScriptRun => init_session session_state
  | ButtonPress => trigger_fetch session_state
  end.

(** Exceptions of the classes [ValueError] and [IndexError]. *)
Definition ValueError : exn := OtherError "ValueError".
Definition IndexError : exn := OtherError "IndexError".

Definition mem (k : string) (l : list string) : bool := existsb (String.eqb k) l.

(** [csv.DictWriter._dict_to_list] with the default [extrasaction='raise']
    and [restval='']. *)
Definition dict_to_list (fieldnames : list string) (rowdict : dict)
  : result (list pyval) :=
  if existsb (fun k => negb (mem k fieldnames)) (Dict.keys rowdict)
  then Raise ValueError
  else Ok (map (fun key => Dict.get rowdict key (PStr "")) fieldnames).

(** [writer.writerows(results)], as rows of cells. *)
Fixpoint writerows (fieldnames : list string) (rowdicts : list dict)
  : result (list (list pyval)) :=
  match rowdicts with
  | [] => Ok []
  | rowdict :: rest =>
      match dict_to_list fieldnames rowdict with
      | Ok row =>
          match writerows fieldnames rest with
          | Ok rows => Ok (row :: rows)
          | Raise e => Raise e
          end
      | Raise e => Raise e
      end
  end.

(** The CSV step of [render_visualizations], lines 203-206: the header row
    and the rows the CSV writer is given, with [results[0].keys()] as field
    names. The charts of lines 185-201 come before it, see
    [render_visualizations] below. *)
Definition csv_export (results : list dict) : result (list (list pyval)) :=
  match results with
  | [] => Raise IndexError
  | first :: _ =>
      let fieldnames := Dict.keys first in
      match writerows fieldnames results with
      | Ok rows => Ok (map PStr fieldnames :: rows)
      | Raise e => Raise e
      end
  end.

(** ** Vocabulary for the input list *)

Fixpoint all_chars (P : ascii -> bool) (s : string) : bool :=
  match s with
  | EmptyString => true
  | String c rest => P c && all_chars P rest
  end.

Definition first_char (s : string) : option ascii :=
  match s with
  | EmptyString => None
  | String c _ => Some c
  end.

Fixpoint last_char (s : string) : option ascii :=
  match s with
  | EmptyString => None
  | String c EmptyString => Some c
  | String _ rest => last_char rest
  end.

Definition not_space (c : option ascii) : Prop :=
  match c with
  | Some c => Text.is_space c = false
  | None => True
  end.

(** An entry as the address list holds them: not empty, no whitespace at
    either end, no line boundary inside. *)
Definition clean_entry (ip : string) : Prop :=
  ip <> EmptyString
  /\ not_space (first_char ip)
  /\ not_space (last_char ip)
  /\ all_chars (fun c => negb (Text.is_linebreak c)) ip = true.

(** The separators LF and CR LF. *)
Definition newline : string := String (ascii_of_N 10) EmptyString.
Definition crlf : string := String (ascii_of_N 13) newline.

(** ** The charts and the export of the results ([render_visualizations]) *)

(** The collaborators of [render_visualizations]: the frame and chart code of
    pandas and plotly, the download button and the reader of the report
    store; each of them may raise. The frame of line 185 has the union of the
    reports' keys as its columns, and no value where a report lacks the key. *)
Record dashboard (World : Type) : Type := {
  (* line 185: [pd.DataFrame(results)] *)
  frame : list dict -> World -> result unit * World;
  (* lines 188-192: [value_counts] of the Country column, the bar chart *)
  country_chart : list (option pyval) -> World -> result unit * World;
  (* lines 195-201: the sums of the two columns, the line chart *)
  threat_chart :
    list (option pyval) -> list (option pyval) -> World -> result unit * World;
  (* line 207: [st.download_button] on the text of the table *)
  download_button : list (list pyval) -> World -> result unit * World;
  (* lines 210-212: [get_all_reports()] *)
  get_all_reports : World -> result (list (list pyval)) * World;
  (* lines 214-215: the frame of the stored reports *)
  show_history : list (list pyval) -> World -> result unit * World;
  (* line 217 *)
  show_no_history : World -> result unit * World
}.

(** World passing with exceptions, for the code that draws. *)
Definition W (World A : Type) : Type := World -> result A * World.

Definition wret {World A : Type} (a : A) : W World A := fun w => (Ok a, w).

Definition wlift {World A : Type} (r : result A) : W World A := fun w => (r, w).

Definition wbind {World A B : Type} (m : W World A) (k : A -> W World B)
  : W World B :=
  fun w =>
    match m w with
    | (Ok a, w') => k a w'
    | (Raise e, w') => (Raise e, w')
    end.

(** [k in df.columns] *)
Definition in_columns (k : string) (results : list dict) : bool :=
  existsb (fun r => mem k (Dict.keys r)) results.

(** [df[k]] *)
Definition column (k : string) (results : list dict) : list (option pyval) :=
  map (Dict.lookup k) results.

Section Rendering.

Context {World : Type}.
Variable d : dashboard World.

(** Lines 185-201: the frame and the two charts, each chart drawn when its
    columns exist. *)
Definition draw_charts (results : list dict) : W World unit :=
  wbind (frame d results)
    (fun _ =>
       wbind
         (if in_columns "Country" results
          then country_chart d (column "Country" results)
          else wret tt)
         (fun _ =>
            if in_columns "Malicious" results && in_columns "Suspicious" results
            then threat_chart d (column "Malicious" results)
                   (column "Suspicious" results)
            else wret tt)).

(** Lines 207-217: the download button and the stored reports. *)
Definition publish (table : list (list pyval)) : W World unit :=
  wbind (download_button d table)
    (fun _ =>
       wbind (get_all_reports d)
         (fun stored =>
            match stored with
            | _ :: _ => show_history d stored
            | [] => show_no_history d
            end)).

(** Lines 184-217. *)
Definition render_visualizations (results : list dict) : W World unit :=
  wbind (draw_charts results)
    (fun _ => wbind (wlift (csv_export results)) (fun table => publish table)).

End Rendering.

Module Screen.

(** A dashboard on which every call returns and the store is empty. *)
Definition plain : dashboard unit :=
  {| frame := fun _ w => (Ok tt, w);
     country_chart := fun _ w => (Ok tt, w);
     threat_chart := fun _ _ w => (Ok tt, w);
     download_button := fun _ w => (Ok tt, w);
     get_all_reports := fun w => (Ok [], w);
     show_history := fun _ w => (Ok tt, w);
     show_no_history := fun w => (Ok tt, w) |}.

End Screen.

(** * Properties *)

Unset Implicit Arguments.

(** ** Dictionaries *)

Lemma lookup_set_same : forall (d : dict) (k : string) (v : pyval),
  Dict.lookup k (Dict.set d k v) = Some v.
Proof.
  induction d as [| [k' v'] rest IH]; intros k v; simpl.
  - now rewrite String.eqb_refl.
  - destruct (String.eqb k k') eqn:E; simpl; rewrite E; auto.
Qed.

Lemma lookup_set_other : forall (d : dict) (k k' : string) (v : pyval),
  k <> k' -> Dict.lookup k (Dict.set d k' v) = Dict.lookup k d.
Proof.
  induction d as [| [k0 v0] rest IH]; intros k k' v Hne; simpl.
  - apply String.eqb_neq in Hne. now rewrite Hne.
  - destruct (String.eqb k' k0) eqn:E; simpl.
    + apply String.eqb_eq in E. subst k0.
      apply String.eqb_neq in Hne. now rewrite Hne.
    + destruct (String.eqb k k0); auto.
Qed.

Lemma get_set_other : forall (d : dict) (k k' : string) (v dflt : pyval),
  k <> k' -> Dict.get (Dict.set d k' v) k dflt = Dict.get d k dflt.
Proof.
  intros. unfold Dict.get. now rewrite lookup_set_other.
Qed.

Lemma set_nonempty : forall (d : dict) (k : string) (v : pyval),
  py_truthy (PDict (Dict.set d k v)) = true.
Proof.
  intros [| [k' v'] rest] k v; simpl; auto.
  destruct (String.eqb k k'); reflexivity.
Qed.

(** ** Feature extraction *)

Lemma lookup_extract : forall (report : dict) (k : string),
  In k feature_names ->
  Dict.lookup k (extract report) = Some (py_or (Dict.get report k (PInt 0)) (PInt 0)).
Proof.
  intros report k Hin. unfold feature_names in Hin. simpl in Hin.
  repeat (destruct Hin as [<- | Hin]; [reflexivity |]).
  contradiction.
Qed.

(** C4: feature extraction is total and yields exactly the four columns
    Malicious, Suspicious, Abuse Confidence, Reputation, in that order; a
    column whose field is missing or null is the integer 0, an integer field
    is carried over as it is, and a report with none of the four fields gives
    [0, 0, 0, 0]. *)
Theorem extract_four_ordered_features : forall report : dict,
  Dict.keys (extract report) = feature_names
  /\ length (Dict.values (extract report)) = 4%nat
  /\ (forall k, In k feature_names ->
        Dict.lookup k report = None \/ Dict.lookup k report = Some PNone ->
        Dict.lookup k (extract report) = Some (PInt 0))
  /\ (forall k z, In k feature_names ->
        Dict.lookup k report = Some (PInt z) ->
        Dict.lookup k (extract report) = Some (PInt z))
  /\ ((forall k, In k feature_names -> Dict.lookup k report = None) ->
        Dict.values (extract report) = [PInt 0; PInt 0; PInt 0; PInt 0]).
Proof.
  intros report. repeat split.
  - intros k Hin Hk. rewrite (lookup_extract report k Hin). unfold Dict.get.
    destruct Hk as [-> | ->]; reflexivity.
  - intros k z Hin Hk. rewrite (lookup_extract report k Hin). unfold Dict.get.
    rewrite Hk. unfold py_or. simpl.
    destruct (Z.eqb_spec z 0) as [-> | _]; reflexivity.
  - intros Hnone. unfold extract, Dict.values, Dict.get. simpl.
    rewrite !Hnone; simpl; auto 6.
Qed.

(** C9: every one of the four features is the field's value when that value
    is truthy, negative numbers included, and the integer 0 when the field is
    missing or holds a falsy value: null, 0, 0.0, False, the empty string. *)
Theorem extract_or_zero : forall (report : dict) (k : string),
  In k feature_names ->
  (Dict.lookup k report = None -> Dict.lookup k (extract report) = Some (PInt 0))
  /\ (forall v, Dict.lookup k report = Some v -> py_truthy v = false ->
        Dict.lookup k (extract report) = Some (PInt 0))
  /\ (forall v, Dict.lookup k report = Some v -> py_truthy v = true ->
        Dict.lookup k (extract report) = Some v)
  /\ (py_truthy PNone = false /\ py_truthy (PInt 0) = false
      /\ py_truthy (PFloat 0%float) = false /\ py_truthy (PBool false) = false
      /\ py_truthy (PStr "") = false)
  /\ (forall z, z < 0 -> py_truthy (PInt z) = true).
Proof.
  intros report k Hin. rewrite (lookup_extract report k Hin). unfold Dict.get, py_or.
  repeat split.
  - intros ->. reflexivity.
  - intros v -> ->. reflexivity.
  - intros v -> ->. reflexivity.
  - intros z Hz. simpl. destruct (Z.eqb_spec z 0); [lia | reflexivity].
Qed.

Lemma extract_or_zero_witness :
  Dict.lookup "Reputation"
    (extract [("IP", PStr "8.8.8.8"); ("Malicious", PBool false); ("Reputation", PInt (-3))])
  = Some (PInt (-3))
  /\ Dict.lookup "Malicious"
       (extract [("IP", PStr "8.8.8.8"); ("Malicious", PBool false); ("Reputation", PInt (-3))])
     = Some (PInt 0).
Proof.
  split.
  - apply (extract_or_zero
             [("IP", PStr "8.8.8.8"); ("Malicious", PBool false); ("Reputation", PInt (-3))]
             "Reputation"); simpl; auto.
  - apply (extract_or_zero
             [("IP", PStr "8.8.8.8"); ("Malicious", PBool false); ("Reputation", PInt (-3))]
             "Malicious") with (v := PBool false); simpl; auto.
Defined.

(** ** Alert policy *)

Lemma should_alert_ignores_label : forall (report : dict) (label : pyval),
  should_alert (Dict.set report "AI Risk" label) = should_alert report.
Proof.
  intros. unfold should_alert.
  rewrite !get_set_other by discriminate. reflexivity.
Qed.

(** C3: on a report whose abuse confidence and malicious count are integers
    (a missing one counts as 0), the alert condition evaluates to true exactly
    when one of the two is greater than 0, and attaching any risk label, the
    "Error" sentinel included, does not change it. *)
Theorem should_alert_iff_positive_signal :
  forall (report : dict) (abuse malicious : Z) (label : pyval),
    Dict.get report "Abuse Confidence" (PInt 0) = PInt abuse ->
    Dict.get report "Malicious" (PInt 0) = PInt malicious ->
    (should_alert report = Ok true <-> (abuse > 0 \/ malicious > 0))
    /\ (should_alert report = Ok false <-> ~ (abuse > 0 \/ malicious > 0))
    /\ should_alert (Dict.set report "AI Risk" label) = should_alert report
    /\ should_alert (Dict.set report "AI Risk" (PStr "Error")) = should_alert report.
Proof.
  intros report abuse malicious label Ha Hm.
  assert (Hval : should_alert report = Ok ((0 <? abuse) || (0 <? malicious))).
  { unfold should_alert. rewrite Ha, Hm. simpl.
    destruct (0 <? abuse); reflexivity. }
  split; [| split; [| split; apply should_alert_ignores_label]];
    rewrite Hval; split.
  - intros H. injection H as H. apply orb_true_iff in H.
    destruct H as [H | H]; apply Z.ltb_lt in H; lia.
  - intros H. f_equal. apply orb_true_iff.
    destruct H as [H | H]; [left | right]; apply Z.ltb_lt; lia.
  - intros H. injection H as H. apply orb_false_iff in H.
    destruct H as [H1 H2]. apply Z.ltb_ge in H1, H2. lia.
  - intros H. f_equal. apply orb_false_iff. split; apply Z.ltb_ge; lia.
Qed.

Lemma should_alert_iff_positive_signal_witness :
  should_alert [("IP", PStr "8.8.8.8"); ("Malicious", PInt 3); ("Suspicious", PInt 1)]
    = Ok true <-> (0 > 0 \/ 3 > 0).
Proof.
  apply (should_alert_iff_positive_signal
           [("IP", PStr "8.8.8.8"); ("Malicious", PInt 3); ("Suspicious", PInt 1)]
           0 3 (PStr "Error")); reflexivity.
Defined.

(** ** Provider adapters *)

Lemma bind_lift : forall (World A B : Type) (r : result A) (k : A -> M World B) (s : state World),
  bind (lift r) k s = match r with Ok a => k a s | Raise e => (Raise e, s) end.
Proof. intros. unfold bind, lift. destruct r; reflexivity. Qed.

Ltac break_payload :=
  repeat first
    [ rewrite bind_lift
    | progress unfold py_get, py_subscript, Dict.get
    | match goal with
      | |- context [match Dict.lookup ?k ?d with _ => _ end] =>
          destruct (Dict.lookup k d) eqn:?
      | |- context [match ?v with PNone => _ | _ => _ end] => destruct v eqn:?
      end ].

Lemma adapter_effect : forall (World : Type) (env : collaborators World) (p : provider)
    (ip : string) (key : option string) (s : state World),
  exists r,
    api_function_map env p ip key s
    = (r, {| world := snd (requests_get env p ip key (world s));
             trace := trace s ++ [EvHttpGet p ip key] |})
    /\ forall d, r = Ok (Some d) ->
         report_truthy (Some d) = true
         /\ Dict.lookup "IP" d = Some (PStr ip)
         /\ Dict.lookup "Source" d = Some (PStr (provider_name p)).
Proof.
  intros World env p ip key s.
  destruct p; unfold api_function_map, get_virustotal, get_abuseipdb, get_otx, http_get, call;
    unfold bind at 1;
    destruct (requests_get env _ ip key (world s)) as [[resp | e] w']; cbn [snd];
    try (eexists; split; [reflexivity | discriminate]);
    destruct (status_code resp =? 200);
    try (eexists; split; [reflexivity | discriminate]);
    rewrite bind_lift; destruct (json resp) as [body | e];
    try (eexists; split; [reflexivity | discriminate]).
  - break_payload.
    all: try (eexists; split; [reflexivity | discriminate]).
    all: eexists; split; [reflexivity |].
    all: intros ? Hd; injection Hd as <-; repeat split.
  - break_payload.
    all: try (eexists; split; [reflexivity | discriminate]).
    all: eexists; split; [reflexivity |].
    all: intros ? Hd; injection Hd as <-; repeat split.
  - break_payload.
    all: try (eexists; split; [reflexivity | discriminate]).
    all: eexists; split; [reflexivity |].
    all: intros ? Hd; injection Hd as <-; repeat split.
Qed.

(** C8, as amended: on a status-200 response whose body is a JSON object in
    which every nested container the adapter walks through is well formed
    (VirusTotal: data, attributes and last_analysis_stats each missing or an
    object; AbuseIPDB: data present and an object; OTX: the body itself), the
    adapter does not raise, makes its one request, and returns a report in
    which every copied field holds the payload's value when the payload has
    it and the documented default ("N/A", 0) when it is missing. *)
Theorem adapter_defaults_on_walkable_payload :
  forall (World : Type) (env : collaborators World) (p : provider) (ip : string)
         (key : option string) (s : state World) (resp : response) (w' : World)
         (body : pyval),
    requests_get env p ip key (world s) = (Ok resp, w') ->
    status_code resp = 200 ->
    json resp = Ok body ->
    payload_walkable p body = true ->
    exists report,
      api_function_map env p ip key s
      = (Ok (Some report), {| world := w'; trace := trace s ++ [EvHttpGet p ip key] |})
      /\ Forall (fun '(path, k, dflt) =>
                   Dict.lookup k report
                   = Some (match path_lookup path body with
                           | Some v => v
                           | None => dflt
                           end))
                (provider_fields p).
Proof.
  intros World env p ip key s resp w' body Hreq Hstatus Hjson Hwalk.
  destruct p; unfold api_function_map, get_virustotal, get_abuseipdb, get_otx, http_get, call;
    unfold bind at 1; rewrite Hreq, Hstatus; cbn [Z.eqb Pos.eqb];
    rewrite bind_lift, Hjson;
    unfold payload_walkable, object_or_missing, object_present in Hwalk;
    unfold Dict.get.
  - break_payload.
    all: subst; cbn in Hwalk; 
      repeat match goal with H : Dict.lookup _ _ = _ |- _ => rewrite H in Hwalk; cbn in Hwalk end;
      try discriminate.
    all: eexists; split; [reflexivity |].
    all: repeat constructor; cbn;
      repeat match goal with H : Dict.lookup _ _ = _ |- _ => rewrite H end; reflexivity.
  - break_payload.
    all: subst; cbn in Hwalk; 
      repeat match goal with H : Dict.lookup _ _ = _ |- _ => rewrite H in Hwalk; cbn in Hwalk end;
      try discriminate.
    all: eexists; split; [reflexivity |].
    all: repeat constructor; cbn;
      repeat match goal with H : Dict.lookup _ _ = _ |- _ => rewrite H end; reflexivity.
  - break_payload.
    all: subst; cbn in Hwalk; 
      repeat match goal with H : Dict.lookup _ _ = _ |- _ => rewrite H in Hwalk; cbn in Hwalk end;
      try discriminate.
    all: eexists; split; [reflexivity |].
    all: repeat constructor; cbn;
      repeat match goal with H : Dict.lookup _ _ = _ |- _ => rewrite H end; reflexivity.
Qed.

Lemma adapter_defaults_on_walkable_payload_witness :
  exists report,
    api_function_map Sample.vt_env VirusTotal "8.8.8.8" (Some "k") Sample.start
    = (Ok (Some report),
       {| world := tt; trace := [EvHttpGet VirusTotal "8.8.8.8" (Some "k")] |})
    /\ Forall (fun '(path, k, dflt) =>
                 Dict.lookup k report
                 = Some (match path_lookup path Sample.vt_body with
                         | Some v => v
                         | None => dflt
                         end))
              (provider_fields VirusTotal).
Proof.
  apply (adapter_defaults_on_walkable_payload unit Sample.vt_env VirusTotal
           "8.8.8.8" (Some "k") Sample.start
           {| status_code := 200; json := Ok Sample.vt_body |} tt Sample.vt_body);
    reflexivity.
Defined.

(** C8 as stated fails: a status-200 VirusTotal body [{"data": null}] makes
    the adapter raise AttributeError, and a status-200 AbuseIPDB body [{}]
    makes the adapter raise KeyError. *)
Lemma adapters_raise_on_unwalkable_payload :
  requests_get Sample.malformed_env VirusTotal "8.8.8.8" (Some "k") tt
    = (Ok {| status_code := 200; json := Ok (PDict [("data", PNone)]) |}, tt)
  /\ fst (get_virustotal Sample.malformed_env "8.8.8.8" (Some "k") Sample.start)
     = Raise AttributeError
  /\ requests_get Sample.malformed_env AbuseIPDB "8.8.8.8" (Some "k") tt
     = (Ok {| status_code := 200; json := Ok (PDict []) |}, tt)
  /\ fst (get_abuseipdb Sample.malformed_env "8.8.8.8" (Some "k") Sample.start)
     = Raise (KeyError "data").
Proof.
  repeat split.
Qed.

(** ** Hybrid fallback *)

Lemma usable_some : forall (r : result (option dict)) (d : dict),
  usable r = Some d -> r = Ok (Some d).
Proof.
  intros [[d' |] | e] d H; simpl in H; try discriminate.
  destruct d'; simpl in H; try discriminate. now injection H as <-.
Qed.

Lemma hybrid_step : forall (World : Type) (env : collaborators World) (ip : string)
    (manual_key : option string) (name : provider) (rest : list provider) (s : state World),
  hybrid_loop env (name :: rest) ip manual_key s
  = if key_truthy (key_to_use env manual_key name) then
      match usable (fst (api_function_map env name ip (key_to_use env manual_key name) s)) with
      | Some d =>
          (Ok (Some (Dict.set d "Source" (PStr (provider_name name)))),
           snd (api_function_map env name ip (key_to_use env manual_key name) s))
      | None =>
          hybrid_loop env rest ip manual_key
            (snd (api_function_map env name ip (key_to_use env manual_key name) s))
      end
    else hybrid_loop env rest ip manual_key s.
Proof.
  intros. cbn [hybrid_loop].
  destruct (key_truthy (key_to_use env manual_key name)); [| reflexivity].
  unfold bind at 1, try_except, bind at 1.
  destruct (api_function_map env name ip (key_to_use env manual_key name) s)
    as [[[d |] | e] s1]; cbn [fst snd usable ret]; try reflexivity.
  destruct (report_truthy (Some d)); reflexivity.
Qed.

Lemma hybrid_loop_spec : forall (World : Type) (env : collaborators World) (ip : string)
    (manual_key : option string) (items : list provider) (s : state World),
  exists called res s',
    hybrid_loop env items ip manual_key s = (Ok res, s')
    /\ trace s' = trace s ++ map (fun p => EvHttpGet p ip (key_to_use env manual_key p)) called
    /\ (exists later, resolvable env manual_key items = called ++ later)
    /\ match res with
       | Some r =>
           exists earlier p r0 s_p,
             called = earlier ++ [p]
             /\ fell_through env ip manual_key earlier s s_p
             /\ api_function_map env p ip (key_to_use env manual_key p) s_p
                = (Ok (Some r0), s')
             /\ report_truthy (Some r0) = true
             /\ r = Dict.set r0 "Source" (PStr (provider_name p))
       | None =>
           called = resolvable env manual_key items
           /\ fell_through env ip manual_key called s s'
       end.
Proof.
  intros World env ip manual_key items.
  induction items as [| name rest IH]; intros s.
  - exists [], None, s. cbn. rewrite app_nil_r.
    repeat split; try constructor. now exists [].
  - rewrite hybrid_step. unfold resolvable. cbn [filter]. fold (resolvable env manual_key rest).
    destruct (key_truthy (key_to_use env manual_key name)) eqn:Hkey; [| apply IH].
    destruct (adapter_effect World env name ip (key_to_use env manual_key name) s)
      as [r [Hrun Hshape]].
    rewrite Hrun. cbn [fst snd].
    destruct (usable r) as [d |] eqn:Hus.
    + apply usable_some in Hus as Hr. subst r.
      exists [name]. eexists. eexists. split; [reflexivity |].
      cbn [trace map]. split; [reflexivity |].
      split; [now exists (resolvable env manual_key rest) |].
      exists [], name, d, s. repeat split; try constructor; auto.
      now apply Hshape.
    + destruct (IH {| world := snd (requests_get env name ip (key_to_use env manual_key name) (world s));
                      trace := trace s ++ [EvHttpGet name ip (key_to_use env manual_key name)] |})
        as [called [res [s' [Hloop [Htrace [[later Hlater] Hres]]]]]].
      exists (name :: called), res, s'. split; [exact Hloop |].
      split; [rewrite Htrace; cbn [trace map]; now rewrite <- app_assoc |].
      split; [exists later; now rewrite Hlater |].
      destruct res as [r' |].
      * destruct Hres as [earlier [p [r0 [s_p [Hc [Hft [Hcall [Htr Hr']]]]]]]].
        exists (name :: earlier), p, r0, s_p. repeat split; auto.
        -- now rewrite Hc.
        -- constructor; rewrite Hrun; auto.
      * destruct Hres as [Hc Hft]. split; [now rewrite Hc |].
        constructor; rewrite Hrun; auto.
Qed.

Lemma providers_called_app : forall tr1 tr2 : list event,
  providers_called (tr1 ++ tr2) = providers_called tr1 ++ providers_called tr2.
Proof.
  induction tr1 as [| ev tr1 IH]; intros tr2; [reflexivity |].
  destruct ev; cbn; now rewrite IH.
Qed.

Lemma providers_called_requests : forall (ip : string) (key : provider -> option string)
    (called : list provider),
  providers_called (map (fun p => EvHttpGet p ip (key p)) called) = called.
Proof.
  induction called as [| p called IH]; cbn; now rewrite ?IH.
Qed.

Lemma usable_none_iff : forall (World : Type) (env : collaborators World) (p : provider)
    (ip : string) (key : option string) (s : state World),
  usable (fst (api_function_map env p ip key s)) = None
  <-> (fst (api_function_map env p ip key s) = Ok None
       \/ exists e, fst (api_function_map env p ip key s) = Raise e).
Proof.
  intros World env p ip key s.
  destruct (adapter_effect World env p ip key s) as [r [Hrun Hshape]].
  rewrite Hrun. cbn [fst]. destruct r as [[d |] | e]; cbn [usable].
  - destruct (Hshape d eq_refl) as [-> _]. split; [discriminate |].
    intros [H | [e H]]; discriminate.
  - split; auto.
  - split; eauto.
Qed.

(** C1: in hybrid mode the adapters are called in the order VirusTotal,
    AbuseIPDB, AlienVault OTX (the providers called are an initial segment of
    those with a credential, in that order); when a report is returned, it
    comes from the last provider called, every provider called before it gave
    nothing usable, no provider after it is called, and the report is the
    adapter's dictionary with Source set to that provider's name. An adapter
    call gives nothing usable exactly when it returns None or raises. *)
Theorem hybrid_priority_first_usable :
  forall (World : Type) (env : collaborators World) (ip : string)
         (manual_key : option string) (s : state World),
  (exists called res s',
     get_hybrid_report env ip manual_key s = (Ok res, s')
     /\ providers_called (trace s') = providers_called (trace s) ++ called
     /\ (exists later,
           filter (fun p => key_truthy (key_to_use env manual_key p))
                  [VirusTotal; AbuseIPDB; AlienVaultOTX]
           = called ++ later)
     /\ match res with
        | Some r =>
            exists earlier p r0 s_p,
              called = earlier ++ [p]
              /\ fell_through env ip manual_key earlier s s_p
              /\ api_function_map env p ip (key_to_use env manual_key p) s_p
                 = (Ok (Some r0), s')
              /\ r = Dict.set r0 "Source" (PStr (provider_name p))
              /\ Dict.lookup "Source" r = Some (PStr (provider_name p))
        | None =>
            called = filter (fun p => key_truthy (key_to_use env manual_key p))
                            [VirusTotal; AbuseIPDB; AlienVaultOTX]
            /\ fell_through env ip manual_key called s s'
        end)
  /\ (forall q key s0,
        usable (fst (api_function_map env q ip key s0)) = None
        <-> (fst (api_function_map env q ip key s0) = Ok None
             \/ exists e, fst (api_function_map env q ip key s0) = Raise e)).
Proof.
  intros World env ip manual_key s.
  split; [| intros q key s0; apply usable_none_iff].
  destruct (hybrid_loop_spec World env ip manual_key functions s)
    as [called [res [s' [Hrun [Htrace [Hprefix Hres]]]]]].
  exists called, res, s'. split; [exact Hrun |].
  split.
  { rewrite Htrace, providers_called_app. f_equal. apply providers_called_requests. }
  split; [exact Hprefix |].
  destruct res as [r |]; [| exact Hres].
  destruct Hres as [earlier [p [r0 [s_p [Hc [Hft [Hcall [_ Hr]]]]]]]].
  exists earlier, p, r0, s_p. repeat split; auto.
  rewrite Hr. apply lookup_set_same.
Qed.

(** C2: in hybrid mode the coordinator never raises, whatever the adapters
    do; a provider without a truthy credential (manual key or environment
    variable) is not called; an adapter call that raises is swallowed and the
    loop goes on with the next provider; when every provider with a
    credential raises or returns nothing the coordinator returns None; and
    when no provider has a credential it returns None without any call. *)
Theorem hybrid_swallows_and_skips :
  forall (World : Type) (env : collaborators World) (ip : string)
         (manual_key : option string) (s : state World),
  exists called res s',
    get_hybrid_report env ip manual_key s = (Ok res, s')
    /\ providers_called (trace s') = providers_called (trace s) ++ called
    /\ (forall p, key_truthy (key_to_use env manual_key p) = false -> ~ In p called)
    /\ (forall p rest s0 s1 e,
          key_truthy (key_to_use env manual_key p) = true ->
          api_function_map env p ip (key_to_use env manual_key p) s0 = (Raise e, s1) ->
          hybrid_loop env (p :: rest) ip manual_key s0
          = hybrid_loop env rest ip manual_key s1)
    /\ ((forall p s0,
           key_truthy (key_to_use env manual_key p) = true ->
           usable (fst (api_function_map env p ip (key_to_use env manual_key p) s0)) = None) ->
        res = None)
    /\ ((forall p, key_truthy (key_to_use env manual_key p) = false) ->
        res = None /\ s' = s).
Proof.
  intros World env ip manual_key s.
  destruct (hybrid_loop_spec World env ip manual_key functions s)
    as [called [res [s' [Hrun [Htrace [[later Hprefix] Hres]]]]]].
  assert (Hcred : forall p, In p called -> key_truthy (key_to_use env manual_key p) = true).
  { intros p Hin.
    assert (Hf : In p (resolvable env manual_key functions))
      by (rewrite Hprefix; apply in_or_app; now left).
    apply filter_In in Hf. apply Hf. }
  exists called, res, s'. split; [exact Hrun |].
  split.
  { rewrite Htrace, providers_called_app. f_equal. apply providers_called_requests. }
  split.
  { intros p Hno Hin. apply Hcred in Hin. congruence. }
  split.
  { intros p rest s0 s1 e Hkey Hcall. rewrite hybrid_step, Hkey, Hcall. reflexivity. }
  split.
  { intros Hfail. destruct res as [r |]; [| reflexivity].
    destruct Hres as [earlier [p [r0 [s_p [Hc [_ [Hcall [Htruthy _]]]]]]]].
    assert (Hin : In p called) by (rewrite Hc; apply in_or_app; right; now left).
    specialize (Hfail p s_p (Hcred p Hin)). rewrite Hcall in Hfail.
    cbn [fst usable] in Hfail. rewrite Htruthy in Hfail. discriminate. }
  intros Hnone.
  assert (Hempty : called = []).
  { destruct called as [| p called']; [reflexivity |].
    specialize (Hcred p (or_introl eq_refl)). rewrite Hnone in Hcred. discriminate. }
  subst called. destruct res as [r |].
  - destruct Hres as [earlier [p [r0 [s_p [Hc _]]]]]. destruct earlier; discriminate.
  - destruct Hres as [_ Hft]. inversion Hft. auto.
Qed.

(** ** Orchestrator *)

Lemma classify_effect : forall (World : Type) (env : collaborators World)
    (report features : dict) (s : state World),
  classify env report features s
  = (Ok (Dict.set report "AI Risk"
           match fst (rf_predict env features (world s)) with
           | Ok risk => risk
           | Raise _ => PStr "Error"
           end),
     {| world := snd (rf_predict env features (world s));
        trace := trace s ++ [EvPredict features] |}).
Proof.
  intros. unfold classify, try_except, bind, call, ret.
  destruct (rf_predict env features (world s)) as [[risk | e] w']; reflexivity.
Qed.

Lemma http_requests_app : forall tr1 tr2 : list event,
  http_requests (tr1 ++ tr2) = http_requests tr1 ++ http_requests tr2.
Proof.
  induction tr1 as [| ev tr1 IH]; intros tr2; [reflexivity |].
  destruct ev; cbn; now rewrite IH.
Qed.

Lemma alert_effect : forall (World : Type) (env : collaborators World)
    (report : dict) (ip : pyval) (s : state World),
  Dict.lookup "IP" report = Some ip ->
  exists s' evs,
    alert env report s = (Ok tt, s')
    /\ trace s' = trace s ++ EvCheckAlerts report :: evs
    /\ http_requests evs = []
    /\ (should_alert report = Ok true ->
        fst (check_alerts env report (world s)) = Ok tt ->
        In (EvSendEmail ip report) evs)
    /\ (should_alert report = Ok false -> ~ In (EvSendEmail ip report) evs).
Proof.
  intros World env report ip s Hip.
  unfold alert, try_except, report_ip, py_subscript, bind, lift, emit, ret, call.
  rewrite Hip. cbn [world trace].
  destruct (check_alerts env report (world s)) as [[[] | e] w1]; cbn [fst world trace].
  - destruct (should_alert report) as [[|] | e]; cbn [world trace].
    + destruct (send_email_alert env ip report w1) as [[[] | e] w2]; cbn [world trace].
      * eexists. exists [EvStSuccess ip; EvSendEmail ip report; EvPrint (AlertSentLine ip)].
        split; [reflexivity |]. cbn [trace]. rewrite <- !app_assoc. cbn.
        repeat split; auto; discriminate.
      * eexists. exists [EvStSuccess ip; EvSendEmail ip report; EvStError ip;
                         EvPrint (AlertFailedLine ip e)].
        split; [reflexivity |]. cbn [trace]. rewrite <- !app_assoc. cbn.
        repeat split; auto; discriminate.
    + eexists. exists []. split; [reflexivity |].
      cbn. repeat split; auto; discriminate.
    + eexists. exists [EvStError ip; EvPrint (AlertFailedLine ip e)].
      split; [reflexivity |]. cbn [trace]. rewrite <- !app_assoc. cbn.
      repeat split; auto; try discriminate.
  - eexists. exists [EvStError ip; EvPrint (AlertFailedLine ip e)].
    split; [reflexivity |]. cbn [trace]. rewrite <- !app_assoc. cbn.
    repeat split; auto; try discriminate.
    intros _ [H | [H | []]]; discriminate.
Qed.

Lemma providers_called_http : forall tr : list event,
  providers_called tr = map (fun r => fst (fst r)) (http_requests tr).
Proof.
  induction tr as [| ev tr IH]; [reflexivity |].
  destruct ev; cbn; now rewrite ?IH.
Qed.

Lemma resolve_effect : forall (World : Type) (env : collaborators World)
    (api_choice : choice) (user_api_key : string) (ip : string) (s : state World),
  exists fetched s1,
    resolve env api_choice user_api_key ip s = (fetched, s1)
    /\ forall d, fetched = Ok (Some d) ->
         report_truthy (Some d) = true /\ Dict.lookup "IP" d = Some (PStr ip).
Proof.
  intros World env api_choice user_api_key ip s. unfold resolve.
  destruct api_choice as [| p].
  - destruct (hybrid_loop_spec World env ip (Some user_api_key) functions s)
      as [called [res [s' [Hrun [_ [_ Hres]]]]]].
    exists (Ok res), s'. split; [exact Hrun |].
    intros d Hd. injection Hd as ->.
    destruct Hres as [earlier [p [r0 [s_p [_ [_ [Hcall [_ ->]]]]]]]].
    split; [apply set_nonempty |].
    rewrite lookup_set_other by discriminate.
    destruct (adapter_effect World env p ip (key_to_use env (Some user_api_key) p) s_p)
      as [r [Hrun' Hshape]].
    rewrite Hcall in Hrun'. injection Hrun' as <- _.
    now apply Hshape.
  - match goal with |- context [api_function_map env p ip ?k s] =>
      destruct (adapter_effect World env p ip k s) as [r [Hrun Hshape]] end.
    eexists. eexists. split; [exact Hrun |].
    intros d Hd. split; now apply Hshape.
Qed.

Lemma process_ip_cases : forall (World : Type) (env : collaborators World)
    (api_choice : choice) (user_api_key : string) (ip : string)
    (results : list dict) (s : state World),
  exists fetched s1,
    resolve env api_choice user_api_key ip s = (fetched, s1)
    /\ match fetched with
       | Ok (Some report) =>
           exists label s2 s3 evs,
             classify env report (extract report) s1
             = (Ok (Dict.set report "AI Risk" label), s2)
             /\ alert env (Dict.set report "AI Risk" label) s2 = (Ok tt, s3)
             /\ trace s3
                = trace s1 ++ EvPredict (extract report)
                    :: EvCheckAlerts (Dict.set report "AI Risk" label) :: evs
             /\ http_requests evs = []
             /\ Dict.lookup "IP" (Dict.set report "AI Risk" label) = Some (PStr ip)
             /\ process_ip env api_choice user_api_key ip results s
                = (match fst (save_report env (Dict.set report "AI Risk" label) (world s3)) with
                   | Ok _ => Ok (results ++ [Dict.set report "AI Risk" label])
                   | Raise e => Raise e
                   end,
                   {| world := snd (save_report env (Dict.set report "AI Risk" label) (world s3));
                      trace := trace s3 ++ [EvSaveReport (Dict.set report "AI Risk" label)] |})
       | Ok None =>
           process_ip env api_choice user_api_key ip results s = (Ok results, s1)
       | Raise e =>
           process_ip env api_choice user_api_key ip results s = (Raise e, s1)
       end.
Proof.
  intros World env api_choice user_api_key ip results s.
  destruct (resolve_effect World env api_choice user_api_key ip s)
    as [fetched [s1 [Hres Hshape]]].
  exists fetched, s1. split; [exact Hres |].
  destruct fetched as [[report |] | e];
    try (unfold process_ip; unfold bind at 1; rewrite Hres; reflexivity).
  destruct (Hshape report eq_refl) as [Htruthy Hip].
  pose proof (classify_effect World env report (extract report) s1) as Hcl.
  set (label := match fst (rf_predict env (extract report) (world s1)) with
                | Ok risk => risk
                | Raise _ => PStr "Error"
                end) in Hcl.
  set (s2 := {| world := snd (rf_predict env (extract report) (world s1));
                trace := trace s1 ++ [EvPredict (extract report)] |}) in Hcl.
  assert (Hip' : Dict.lookup "IP" (Dict.set report "AI Risk" label) = Some (PStr ip))
    by (rewrite lookup_set_other by discriminate; exact Hip).
  destruct (alert_effect World env (Dict.set report "AI Risk" label) (PStr ip) s2 Hip')
    as [s3 [evs [Hal [Htr [Hhttp _]]]]].
  exists label, s2, s3, evs.
  split; [exact Hcl |]. split; [exact Hal |].
  split; [rewrite Htr; subst s2; cbn [trace]; now rewrite <- app_assoc |].
  split; [exact Hhttp |]. split; [exact Hip' |].
  unfold process_ip. unfold bind at 1. rewrite Hres. cbv beta iota.
  rewrite Htruthy. cbn [negb].
  unfold bind at 1. rewrite Hcl. unfold bind at 1. rewrite Hal.
  unfold bind, call, ret.
  destruct (save_report env (Dict.set report "AI Risk" label) (world s3)) as [[[] | e] w4];
    reflexivity.
Qed.

Lemma run_loop_step : forall (World : Type) (env : collaborators World)
    (api_choice : choice) (user_api_key : string) (ip : string) (rest : list string)
    (results : list dict) (s : state World),
  run_loop env api_choice user_api_key (ip :: rest) results s
  = match process_ip env api_choice user_api_key ip results s with
    | (Ok results', s') => run_loop env api_choice user_api_key rest results' s'
    | (Raise e, s') =>
        run_loop env api_choice user_api_key rest results
          {| world := world s'; trace := trace s' ++ [EvPrint (ProcessingErrorLine ip e)] |}
    end.
Proof.
  intros. cbn [run_loop]. unfold bind at 1, try_except.
  destruct (process_ip env api_choice user_api_key ip results s) as [[results' | e] s'];
    reflexivity.
Qed.

(** What one address adds to the result list: nothing, or one report. *)
Lemma process_ip_contribution : forall (World : Type) (env : collaborators World)
    (api_choice : choice) (user_api_key : string) (ip : string)
    (results : list dict) (s : state World),
  exists outcome s',
    (forall acc, process_ip env api_choice user_api_key ip acc s
                 = (match outcome with
                    | Ok added => Ok (acc ++ added)
                    | Raise e => Raise e
                    end, s'))
    /\ match outcome with
       | Ok added =>
           added = []
           \/ exists report label s1,
                resolve env api_choice user_api_key ip s = (Ok (Some report), s1)
                /\ added = [Dict.set report "AI Risk" label]
                /\ Dict.lookup "IP" (Dict.set report "AI Risk" label) = Some (PStr ip)
       | Raise _ => True
       end.
Proof.
  intros World env api_choice user_api_key ip results s.
  destruct (process_ip_cases World env api_choice user_api_key ip results s)
    as [fetched [s1 [Hres Hcase]]].
  destruct fetched as [[report |] | e].
  - destruct Hcase as [label [s2 [s3 [evs [Hcl [Hal [_ [_ [Hip _]]]]]]]]].
    set (labelled := Dict.set report "AI Risk" label) in *.
    exists (match fst (save_report env labelled (world s3)) with
            | Ok _ => Ok [labelled]
            | Raise e => Raise e
            end).
    eexists. split.
    + intros acc.
      destruct (process_ip_cases World env api_choice user_api_key ip acc s)
        as [fetched' [s1' [Hres' Hcase']]].
      rewrite Hres in Hres'. injection Hres' as <- <-.
      destruct Hcase' as [label' [s2' [s3' [evs' [Hcl' [Hal' [_ [_ [_ Hrun]]]]]]]]].
      rewrite Hcl in Hcl'. injection Hcl' as Hlab <-.
      fold labelled in Hlab. rewrite <- Hlab in *.
      rewrite Hal in Hal'. injection Hal' as <-.
      rewrite Hrun. fold labelled.
      destruct (fst (save_report env labelled (world s3))); reflexivity.
    + destruct (fst (save_report env labelled (world s3))); [| exact I].
      right. exists report, label, s1. auto.
  - exists (Ok []), s1. split; [| now left].
    intros acc.
    destruct (process_ip_cases World env api_choice user_api_key ip acc s)
      as [fetched' [s1' [Hres' Hcase']]].
    rewrite Hres in Hres'. injection Hres' as <- <-. rewrite app_nil_r. exact Hcase'.
  - exists (Raise e), s1. split; [| exact I].
    intros acc.
    destruct (process_ip_cases World env api_choice user_api_key ip acc s)
      as [fetched' [s1' [Hres' Hcase']]].
    rewrite Hres in Hres'. injection Hres' as <- <-. exact Hcase'.
Qed.

Lemma run_loop_spec : forall (World : Type) (env : collaborators World)
    (api_choice : choice) (user_api_key : string) (ip_list : list string)
    (s : state World),
  exists out s',
    (forall acc, run_loop env api_choice user_api_key ip_list acc s = (Ok (acc ++ out), s'))
    /\ subseq (map (Dict.lookup "IP") out) (map (fun ip => Some (PStr ip)) ip_list).
Proof.
  intros World env api_choice user_api_key ip_list.
  induction ip_list as [| ip rest IH]; intros s.
  - exists [], s. split; [| constructor].
    intros acc. cbn. now rewrite app_nil_r.
  - destruct (process_ip_contribution World env api_choice user_api_key ip [] s)
      as [[added | e] [s1 [Hstep Hadded]]].
    + destruct (IH s1) as [out [s' [Hrest Hsub]]].
      exists (added ++ out), s'. split.
      * intros acc. rewrite run_loop_step, Hstep, Hrest. now rewrite app_assoc.
      * destruct Hadded as [-> | [report [label [s0 [_ [-> Hip]]]]]]; cbn [app map].
        -- now constructor.
        -- rewrite Hip. now constructor.
    + destruct (IH {| world := world s1;
                      trace := trace s1 ++ [EvPrint (ProcessingErrorLine ip e)] |})
        as [out [s' [Hrest Hsub]]].
      exists out, s'. split.
      * intros acc. rewrite run_loop_step, Hstep. apply Hrest.
      * cbn [map]. now constructor.
Qed.

Lemma run_loop_app : forall (World : Type) (env : collaborators World)
    (api_choice : choice) (user_api_key : string) (ips1 ips2 : list string)
    (acc : list dict) (s : state World),
  run_loop env api_choice user_api_key (ips1 ++ ips2) acc s
  = match run_loop env api_choice user_api_key ips1 acc s with
    | (Ok acc', s1) => run_loop env api_choice user_api_key ips2 acc' s1
    | (Raise e, s1) => (Raise e, s1)
    end.
Proof.
  intros World env api_choice user_api_key ips1 ips2.
  induction ips1 as [| ip rest IH]; intros acc s; [reflexivity |].
  cbn [app]. rewrite !run_loop_step.
  destruct (process_ip env api_choice user_api_key ip acc s) as [[acc' | e] s1]; apply IH.
Qed.

(** C6: for every list of addresses the run returns a list whose reports are,
    in order, about a subsequence of the input addresses; the output of a
    list is the output of its first part followed by the output of the rest;
    one address contributes exactly the report the coordinator returned for
    it, with its risk label attached, when [save_report] accepts that report,
    and nothing otherwise; an address for which the coordinator returned None
    contributes nothing; and the report of an address processed to the end
    stands in the output after the reports of the addresses before it and
    before those of the addresses after it. *)
Theorem run_keeps_input_order :
  forall (World : Type) (env : collaborators World) (api_choice : choice)
         (user_api_key : string),
    (forall ip_list s,
       exists out s',
         run_analysis env api_choice user_api_key ip_list s = (Ok out, s')
         /\ subseq (map (Dict.lookup "IP") out) (map (fun ip => Some (PStr ip)) ip_list))
    /\ (forall ips1 ips2 s out1 s1 out2 s2,
          run_analysis env api_choice user_api_key ips1 s = (Ok out1, s1) ->
          run_analysis env api_choice user_api_key ips2 s1 = (Ok out2, s2) ->
          run_analysis env api_choice user_api_key (ips1 ++ ips2) s = (Ok (out1 ++ out2), s2))
    /\ (forall ip s,
          exists out s',
            run_analysis env api_choice user_api_key [ip] s = (Ok out, s')
            /\ match resolve env api_choice user_api_key ip s with
               | (Ok (Some report), s1) =>
                   exists label s2 s3,
                     classify env report (extract report) s1
                     = (Ok (Dict.set report "AI Risk" label), s2)
                     /\ alert env (Dict.set report "AI Risk" label) s2 = (Ok tt, s3)
                     /\ Dict.lookup "IP" (Dict.set report "AI Risk" label) = Some (PStr ip)
                     /\ out = match fst (save_report env (Dict.set report "AI Risk" label)
                                           (world s3)) with
                              | Ok _ => [Dict.set report "AI Risk" label]
                              | Raise _ => []
                              end
               | (Ok None, _) => out = []
               | (Raise _, _) => out = []
               end)
    /\ (forall ip rest s s1,
          resolve env api_choice user_api_key ip s = (Ok None, s1) ->
          run_analysis env api_choice user_api_key (ip :: rest) s
          = run_analysis env api_choice user_api_key rest s1)
    /\ (forall before ip after s out1 s1 report s1' label s2 s3 w4,
          run_analysis env api_choice user_api_key before s = (Ok out1, s1) ->
          resolve env api_choice user_api_key ip s1 = (Ok (Some report), s1') ->
          classify env report (extract report) s1'
          = (Ok (Dict.set report "AI Risk" label), s2) ->
          alert env (Dict.set report "AI Risk" label) s2 = (Ok tt, s3) ->
          save_report env (Dict.set report "AI Risk" label) (world s3) = (Ok tt, w4) ->
          exists out2 s',
            run_analysis env api_choice user_api_key after
              {| world := w4;
                 trace := trace s3 ++ [EvSaveReport (Dict.set report "AI Risk" label)] |}
            = (Ok out2, s')
            /\ run_analysis env api_choice user_api_key (before ++ ip :: after) s
               = (Ok (out1 ++ Dict.set report "AI Risk" label :: out2), s')).
Proof.
  intros World env api_choice user_api_key. unfold run_analysis.
  split; [| split; [| split; [| split]]].
  - intros ip_list s.
    destruct (run_loop_spec World env api_choice user_api_key ip_list s)
      as [out [s' [Hrun Hsub]]].
    exists out, s'. split; [apply (Hrun []) | exact Hsub].
  - intros ips1 ips2 s out1 s1 out2 s2 H1 H2.
    rewrite run_loop_app, H1.
    destruct (run_loop_spec World env api_choice user_api_key ips2 s1)
      as [out [s' [Hrun _]]].
    rewrite (Hrun []) in H2. injection H2 as <- <-. apply Hrun.
  - intros ip s.
    destruct (process_ip_cases World env api_choice user_api_key ip [] s)
      as [fetched [s1 [Hres Hcase]]].
    rewrite run_loop_step, Hres.
    destruct fetched as [[report |] | e].
    + destruct Hcase as [label [s2 [s3 [evs [Hcl [Hal [_ [_ [Hip Hrun]]]]]]]]].
      rewrite Hrun.
      destruct (save_report env (Dict.set report "AI Risk" label) (world s3))
        as [[[] | e] w4] eqn:Hsave; cbn [fst snd run_loop ret];
        eexists; eexists; (split; [reflexivity |]);
        exists label, s2, s3; rewrite Hsave; repeat split; assumption.
    + rewrite Hcase. exists [], s1. split; reflexivity.
    + rewrite Hcase. eexists [], _. split; reflexivity.
  - intros ip rest s s1 Hres. rewrite run_loop_step.
    destruct (process_ip_cases World env api_choice user_api_key ip [] s)
      as [fetched [s1' [Hres' Hcase]]].
    rewrite Hres in Hres'. injection Hres' as <- <-. now rewrite Hcase.
  - intros before ip after s out1 s1 report s1' label s2 s3 w4 Hbefore Hres Hcl Hal Hsave.
    destruct (run_loop_spec World env api_choice user_api_key after
                {| world := w4;
                   trace := trace s3 ++ [EvSaveReport (Dict.set report "AI Risk" label)] |})
      as [out2 [s' [Hafter _]]].
    exists out2, s'. split; [apply (Hafter []) |].
    rewrite run_loop_app, Hbefore, run_loop_step.
    destruct (process_ip_cases World env api_choice user_api_key ip out1 s1)
      as [fetched [s1'' [Hres' Hcase]]].
    rewrite Hres in Hres'. injection Hres' as <- <-.
    destruct Hcase as [label' [s2' [s3' [evs [Hcl' [Hal' [_ [_ [_ Hrun]]]]]]]]].
    rewrite Hcl in Hcl'. injection Hcl' as Hlab <-. rewrite <- Hlab in *.
    rewrite Hal in Hal'. injection Hal' as <-.
    rewrite Hrun, Hsave. cbn [fst snd].
    rewrite Hafter, <- app_assoc. reflexivity.
Qed.

Lemma adapter_raises : forall (World : Type) (env : collaborators World) (p : provider)
    (ip : string) (key : option string) (s : state World) (e : exn) (w' : World),
  requests_get env p ip key (world s) = (Raise e, w') ->
  api_function_map env p ip key s
  = (Raise e, {| world := w'; trace := trace s ++ [EvHttpGet p ip key] |}).
Proof.
  intros World env p ip key s e w' Hreq.
  destruct p; unfold api_function_map, get_virustotal, get_abuseipdb, get_otx, http_get, call;
    unfold bind at 1; rewrite Hreq; reflexivity.
Qed.

Lemma process_ip_requests : forall (World : Type) (env : collaborators World)
    (api_choice : choice) (user_api_key : string) (ip : string)
    (results : list dict) (s : state World),
  exists fetched s1 outcome s',
    resolve env api_choice user_api_key ip s = (fetched, s1)
    /\ process_ip env api_choice user_api_key ip results s = (outcome, s')
    /\ http_requests (trace s') = http_requests (trace s1).
Proof.
  intros World env api_choice user_api_key ip results s.
  destruct (process_ip_cases World env api_choice user_api_key ip results s)
    as [fetched [s1 [Hres Hcase]]].
  exists fetched, s1.
  destruct fetched as [[report |] | e].
  - destruct Hcase as [label [s2 [s3 [evs [_ [_ [Htr [Hhttp [_ Hrun]]]]]]]]].
    eexists. eexists. split; [exact Hres |]. split; [exact Hrun |].
    cbn [trace]. rewrite Htr, !http_requests_app. cbn. rewrite Hhttp.
    now rewrite !app_nil_r.
  - exists (Ok results), s1. auto.
  - exists (Raise e), s1. auto.
Qed.

(** C7: the run never raises and returns a list for every input; the empty
    input gives the empty list; an exception that leaves the processing of
    one address is caught, reported on the console, and the loop goes on with
    the next address and the result list unchanged; in particular an address
    whose every provider request raises, and an address whose report the
    store refuses with an exception, contribute nothing while the remaining
    addresses are processed. *)
Theorem run_never_raises_and_skips_failures :
  forall (World : Type) (env : collaborators World) (api_choice : choice)
         (user_api_key : string),
    (forall ip_list s,
       exists out s', run_analysis env api_choice user_api_key ip_list s = (Ok out, s'))
    /\ (forall s, run_analysis env api_choice user_api_key [] s = (Ok [], s))
    /\ (forall ip rest results s e s1,
          process_ip env api_choice user_api_key ip results s = (Raise e, s1) ->
          run_loop env api_choice user_api_key (ip :: rest) results s
          = run_loop env api_choice user_api_key rest results
              {| world := world s1;
                 trace := trace s1 ++ [EvPrint (ProcessingErrorLine ip e)] |})
    /\ (forall ip rest s,
          (forall p key w, exists e w', requests_get env p ip key w = (Raise e, w')) ->
          exists s1,
            run_analysis env api_choice user_api_key (ip :: rest) s
            = run_analysis env api_choice user_api_key rest s1)
    /\ (forall ip rest s,
          (forall report w,
             Dict.lookup "IP" report = Some (PStr ip) ->
             exists e w', save_report env report w = (Raise e, w')) ->
          exists s1,
            run_analysis env api_choice user_api_key (ip :: rest) s
            = run_analysis env api_choice user_api_key rest s1).
Proof.
  intros World env api_choice user_api_key. unfold run_analysis.
  split; [| split; [| split; [| split]]].
  - intros ip_list s.
    destruct (run_loop_spec World env api_choice user_api_key ip_list s)
      as [out [s' [Hrun _]]].
    exists out, s'. apply (Hrun []).
  - reflexivity.
  - intros ip rest results s e s1 Hraise. now rewrite run_loop_step, Hraise.
  - intros ip rest s Hdown. rewrite run_loop_step.
    destruct (process_ip_cases World env api_choice user_api_key ip [] s)
      as [fetched [s1 [Hres Hcase]]].
    destruct fetched as [[report |] | e].
    + exfalso. unfold resolve in Hres. destruct api_choice as [| p].
      * destruct (hybrid_loop_spec World env ip (Some user_api_key) functions s)
          as [called [res [s' [Hrun [_ [_ Hspec]]]]]].
        unfold get_hybrid_report in Hres. rewrite Hrun in Hres. injection Hres as -> _.
        destruct Hspec as [earlier [p [r0 [s_p [_ [_ [Hcall _]]]]]]].
        destruct (Hdown p (key_to_use env (Some user_api_key) p) (world s_p)) as [e [w' He]].
        rewrite (adapter_raises World env p ip _ s_p e w' He) in Hcall. discriminate.
      * match type of Hres with api_function_map env p ip ?k s = _ =>
          destruct (Hdown p k (world s)) as [e [w' He]];
          rewrite (adapter_raises World env p ip k s e w' He) in Hres end.
        discriminate.
    + rewrite Hcase. now exists s1.
    + rewrite Hcase. eexists. reflexivity.
  - intros ip rest s Hstore. rewrite run_loop_step.
    destruct (process_ip_cases World env api_choice user_api_key ip [] s)
      as [fetched [s1 [Hres Hcase]]].
    destruct fetched as [[report |] | e].
    + destruct Hcase as [label [s2 [s3 [evs [_ [_ [_ [_ [Hip Hrun]]]]]]]]].
      destruct (Hstore (Dict.set report "AI Risk" label) (world s3) Hip) as [e [w' He]].
      rewrite Hrun, He. cbn [fst]. eexists. reflexivity.
    + rewrite Hcase. now exists s1.
    + rewrite Hcase. eexists. reflexivity.
Qed.

(** C5: when the model invocation raises, the classification step does not
    raise and attaches the label "Error"; the alert block then runs on that
    report and does not raise, its condition is the one of the unlabelled
    report, and the e-mail is sent when that condition holds; and once the
    store accepts the report it is appended to the result list. *)
Theorem classifier_failure_is_contained :
  forall (World : Type) (env : collaborators World) (api_choice : choice)
         (user_api_key : string) (ip : string) (results : list dict)
         (s s1 : state World) (report : dict) (e : exn) (w2 : World),
    resolve env api_choice user_api_key ip s = (Ok (Some report), s1) ->
    rf_predict env (extract report) (world s1) = (Raise e, w2) ->
    let labelled := Dict.set report "AI Risk" (PStr "Error") in
    let s2 := {| world := w2; trace := trace s1 ++ [EvPredict (extract report)] |} in
    classify env report (extract report) s1 = (Ok labelled, s2)
    /\ should_alert labelled = should_alert report
    /\ exists s3 evs,
         alert env labelled s2 = (Ok tt, s3)
         /\ trace s3 = trace s2 ++ EvCheckAlerts labelled :: evs
         /\ (should_alert report = Ok true ->
             fst (check_alerts env labelled w2) = Ok tt ->
             In (EvSendEmail (PStr ip) labelled) evs)
         /\ (should_alert report = Ok false -> ~ In (EvSendEmail (PStr ip) labelled) evs)
         /\ forall w4,
              save_report env labelled (world s3) = (Ok tt, w4) ->
              process_ip env api_choice user_api_key ip results s
              = (Ok (results ++ [labelled]),
                 {| world := w4; trace := trace s3 ++ [EvSaveReport labelled] |}).
Proof.
  intros World env api_choice user_api_key ip results s s1 report e w2 Hres Hpred
         labelled s2.
  assert (Hcl : classify env report (extract report) s1 = (Ok labelled, s2)).
  { rewrite classify_effect, Hpred. reflexivity. }
  split; [exact Hcl |].
  split; [apply should_alert_ignores_label |].
  destruct (process_ip_cases World env api_choice user_api_key ip results s)
    as [fetched [s1' [Hres' Hcase]]].
  rewrite Hres in Hres'. injection Hres' as <- <-.
  destruct Hcase as [label [s2' [s3 [evs' [Hcl' [Hal [_ [_ [Hip Hrun]]]]]]]]].
  rewrite Hcl in Hcl'. injection Hcl' as Hlab <-.
  fold labelled in Hlab. rewrite <- Hlab in *. clear Hlab label.
  destruct (alert_effect World env labelled (PStr ip) s2 Hip)
    as [s3' [evs [Hal' [Htr [_ [Hyes Hno]]]]]].
  rewrite Hal in Hal'. injection Hal' as <-.
  exists s3, evs. split; [exact Hal |]. split; [exact Htr |].
  pose proof (should_alert_ignores_label report (PStr "Error")) as Hsame.
  fold labelled in Hsame. rewrite Hsame in Hyes, Hno.
  split; [exact Hyes |]. split; [exact Hno |].
  intros w4 Hsave. rewrite Hrun, Hsave. reflexivity.
Qed.

Lemma classifier_failure_is_contained_witness :
  exists s',
    process_ip Sample.broken_model_env (Single VirusTotal) "k" "8.8.8.8" [] Sample.start
    = (Ok [Dict.set Sample.vt_report "AI Risk" (PStr "Error")], s').
Proof.
  pose proof (classifier_failure_is_contained unit Sample.broken_model_env
                (Single VirusTotal) "k" "8.8.8.8" [] Sample.start
                {| world := tt; trace := [EvHttpGet VirusTotal "8.8.8.8" (Some "k")] |}
                Sample.vt_report (OtherError "shape mismatch") tt eq_refl eq_refl) as H.
  cbv zeta in H.
  destruct H as [_ [_ [s3 [evs [_ [_ [_ [_ Hdone]]]]]]]].
  eexists. exact (Hdone (world s3) eq_refl).
Defined.

(** C10: with no manual key and the provider's environment variable unset,
    direct mode still calls the provider's adapter, once, with the key None;
    hybrid mode under the same conditions makes no call to that provider. *)
Theorem direct_mode_calls_without_credential :
  forall (World : Type) (env : collaborators World) (p : provider) (ip : string)
         (results : list dict) (s : state World),
    getenv env (api_key_env_map p) = None ->
    (exists outcome s',
       process_ip env (Single p) "" ip results s = (outcome, s')
       /\ http_requests (trace s') = http_requests (trace s) ++ [(p, ip, None)])
    /\ (exists outcome s' called,
          process_ip env HybridFallback "" ip results s = (outcome, s')
          /\ providers_called (trace s') = providers_called (trace s) ++ called
          /\ ~ In p called).
Proof.
  intros World env p ip results s Hunset. split.
  - destruct (process_ip_requests World env (Single p) "" ip results s)
      as [fetched [s1 [outcome [s' [Hres [Hrun Hhttp]]]]]].
    exists outcome, s'. split; [exact Hrun |].
    unfold resolve in Hres. cbn [str_truthy] in Hres. rewrite Hunset in Hres.
    destruct (adapter_effect World env p ip None s) as [r [Hcall _]].
    rewrite Hcall in Hres. injection Hres as _ <-.
    rewrite Hhttp. cbn [trace]. now rewrite http_requests_app.
  - destruct (process_ip_requests World env HybridFallback "" ip results s)
      as [fetched [s1 [outcome [s' [Hres [Hrun Hhttp]]]]]].
    destruct (hybrid_loop_spec World env ip (Some "") functions s)
      as [called [res [s1' [Hloop [Htrace [[later Hprefix] _]]]]]].
    unfold resolve, get_hybrid_report in Hres. rewrite Hloop in Hres.
    injection Hres as _ <-.
    exists outcome, s', called. split; [exact Hrun |]. split.
    + rewrite (providers_called_http (trace s')), Hhttp, <- providers_called_http.
      rewrite Htrace, providers_called_app. f_equal. apply providers_called_requests.
    + intros Hin.
      assert (Hf : In p (resolvable env (Some "") functions))
        by (rewrite Hprefix; apply in_or_app; now left).
      apply filter_In in Hf. destruct Hf as [_ Hkey].
      unfold key_to_use, fallback_keys in Hkey. cbn [key_truthy str_truthy] in Hkey.
      rewrite Hunset in Hkey. discriminate.
Qed.

Lemma direct_mode_calls_without_credential_witness :
  (exists outcome s',
     process_ip Sample.vt_env (Single VirusTotal) "" "8.8.8.8" [] Sample.start = (outcome, s')
     /\ http_requests (trace s')
        = http_requests (trace Sample.start) ++ [(VirusTotal, "8.8.8.8", None)])
  /\ (exists outcome s' called,
        process_ip Sample.vt_env HybridFallback "" "8.8.8.8" [] Sample.start = (outcome, s')
        /\ providers_called (trace s') = providers_called (trace Sample.start) ++ called
        /\ ~ In VirusTotal called).
Proof.
  apply (direct_mode_calls_without_credential unit Sample.vt_env VirusTotal "8.8.8.8"
           [] Sample.start).
  reflexivity.
Defined.

(** ** Worked scenarios *)

(** Direct mode on VirusTotal with three malicious and one suspicious verdict:
    the features are [3, 1, 0, 0] and the alert condition holds. *)
Example scenario_virustotal_direct :
  fst (resolve Sample.vt_env (Single VirusTotal) "k" "8.8.8.8" Sample.start)
    = Ok (Some Sample.vt_report)
  /\ Dict.values (extract Sample.vt_report) = [PInt 3; PInt 1; PInt 0; PInt 0]
  /\ should_alert Sample.vt_report = Ok true
  /\ fst (run_analysis Sample.vt_env (Single VirusTotal) "k" ["8.8.8.8"] Sample.start)
     = Ok [Dict.set Sample.vt_report "AI Risk" (PStr "High")].
Proof.
  repeat split.
Qed.

(** Hybrid mode without any credential: no request, an empty result. *)
Example scenario_hybrid_without_credentials :
  run_analysis Sample.vt_env HybridFallback "" ["8.8.8.8"; "1.1.1.1"] Sample.start
  = (Ok [], Sample.start).
Proof.
  reflexivity.
Qed.

(** Hybrid mode with a manual key: VirusTotal raises, AbuseIPDB answers, OTX
    is not called. *)
Example scenario_hybrid_falls_back :
  let run := get_hybrid_report Sample.fallback_env "1.2.3.4" (Some "k") Sample.start in
  fst run
    = Ok (Some [ ("IP", PStr "1.2.3.4"); ("Country", PStr "NL"); ("ISP", PStr "N/A");
                 ("Malicious", PInt 0); ("Suspicious", PInt 0);
                 ("Abuse Confidence", PInt 80); ("Reputation", PInt 0);
                 ("Source", PStr "AbuseIPDB") ])
  /\ providers_called (trace (snd run)) = [VirusTotal; AbuseIPDB].
Proof.
  split; reflexivity.
Qed.

(** Direct mode, the same address twice, the first request timing out: the
    failure is reported on the console and the second pass yields the report. *)
Example scenario_failure_then_success :
  let run := run_analysis Sample.flaky_env (Single VirusTotal) "k"
               ["8.8.8.8"; "8.8.8.8"] {| world := 0%nat; trace := [] |} in
  fst run = Ok [Dict.set Sample.vt_report "AI Risk" (PStr "High")]
  /\ In (EvPrint (ProcessingErrorLine "8.8.8.8" (OtherError "timeout"))) (trace (snd run))
  /\ providers_called (trace (snd run)) = [VirusTotal; VirusTotal].
Proof.
  cbv zeta. repeat split. vm_compute. auto.
Qed.

(** * Further properties *)

(** ** Adapters *)

Lemma set_same_value : forall (d : dict) (k : string) (v : pyval),
  Dict.lookup k d = Some v -> Dict.set d k v = d.
Proof.
  induction d as [| [k' v'] rest IH]; intros k v H; simpl in *; [discriminate |].
  destruct (String.eqb k k') eqn:E.
  - now injection H as ->.
  - now rewrite IH.
Qed.

Lemma keys_set_new : forall (d : dict) (k : string) (v : pyval),
  Dict.lookup k d = None -> Dict.keys (Dict.set d k v) = Dict.keys d ++ [k].
Proof.
  induction d as [| [k' v'] rest IH]; intros k v H; simpl in *; [reflexivity |].
  destruct (String.eqb k k') eqn:E; [discriminate |].
  simpl. f_equal. now apply IH.
Qed.

Lemma adapter_outcome : forall (World : Type) (env : collaborators World) (p : provider)
    (ip : string) (key : option string) (s : state World),
  match requests_get env p ip key (world s) with
  | (Raise e, _) => fst (api_function_map env p ip key s) = Raise e
  | (Ok resp, _) =>
      if status_code resp =? 200
      then fst (api_function_map env p ip key s) <> Ok None
           /\ forall d, fst (api_function_map env p ip key s) = Ok (Some d) ->
                Dict.keys d = report_keys p
                /\ Forall (fun k => Dict.lookup k d = Some (PInt 0)) (silent_signals p)
      else fst (api_function_map env p ip key s) = Ok None
  end.
Proof.
  intros World env p ip key s.
  destruct (requests_get env p ip key (world s)) as [[resp | e] w'] eqn:Hreq;
    [| now rewrite (adapter_raises World env p ip key s e w' Hreq)].
  destruct (status_code resp =? 200) eqn:Hstatus.
  - cut (forall r, fst (api_function_map env p ip key s) = r ->
           r <> Ok None
           /\ forall d, r = Ok (Some d) ->
                Dict.keys d = report_keys p
                /\ Forall (fun k => Dict.lookup k d = Some (PInt 0)) (silent_signals p)).
    { intros H. apply (H _ eq_refl). }
    destruct p;
      unfold api_function_map, get_virustotal, get_abuseipdb, get_otx, http_get, call;
      unfold bind at 1; rewrite Hreq; cbv beta iota; rewrite Hstatus;
      rewrite bind_lift; destruct (json resp) as [body | e];
      try (intros r <-; split; [discriminate | intros ? ?; discriminate]);
      break_payload;
      cbn [fst]; intros r <-; (split; [discriminate | intros ? Hd; try discriminate]);
      injection Hd as <-; (split; [reflexivity | repeat constructor]).
  - destruct p;
      unfold api_function_map, get_virustotal, get_abuseipdb, get_otx, http_get, call;
      unfold bind at 1; rewrite Hreq; cbv beta iota; rewrite Hstatus; reflexivity.
Qed.

(** X1: an adapter returns None exactly when its request went through with
    a status other than 200; the body is then not read, so it need not be
    JSON. A request that raises makes the adapter raise the same exception,
    and in every case the adapter makes exactly one request. *)
Theorem adapter_none_iff_unsuccessful_status :
  forall (World : Type) (env : collaborators World) (p : provider) (ip : string)
         (key : option string) (s : state World),
    (fst (api_function_map env p ip key s) = Ok None
     <-> exists resp,
           fst (requests_get env p ip key (world s)) = Ok resp
           /\ status_code resp <> 200)
    /\ (forall e, fst (requests_get env p ip key (world s)) = Raise e ->
          fst (api_function_map env p ip key s) = Raise e)
    /\ trace (snd (api_function_map env p ip key s)) = trace s ++ [EvHttpGet p ip key].
Proof.
  intros World env p ip key s.
  pose proof (adapter_outcome World env p ip key s) as Hout.
  destruct (adapter_effect World env p ip key s) as [r [Hrun _]].
  destruct (requests_get env p ip key (world s)) as [[resp | e] w']; cbn [fst].
  - destruct (Z.eqb_spec (status_code resp) 200) as [Heq | Hne].
    + destruct Hout as [Hsome _]. repeat split.
      * intros H. contradiction.
      * intros [resp' [Hresp Hne]]. injection Hresp as <-. contradiction.
      * discriminate.
      * now rewrite Hrun.
    + repeat split; try discriminate.
      * intros _. now exists resp.
      * intros _. exact Hout.
      * now rewrite Hrun.
  - repeat split.
    + rewrite Hout. discriminate.
    + intros [resp [Hresp _]]. discriminate.
    + intros e' He. injection He as <-. exact Hout.
    + now rewrite Hrun.
Qed.

Lemma adapter_shape :
  forall (World : Type) (env : collaborators World) (p : provider) (ip : string)
         (key : option string) (s s' : state World) (d : dict),
    api_function_map env p ip key s = (Ok (Some d), s') ->
    report_of p ip d.
Proof.
  intros World env p ip key s s' d Hrun.
  pose proof (adapter_outcome World env p ip key s) as Hout.
  destruct (adapter_effect World env p ip key s) as [r [Hrun' Hshape]].
  rewrite Hrun in Hrun'. injection Hrun' as <- _.
  destruct (Hshape d eq_refl) as [_ [Hip Hsrc]].
  rewrite Hrun in Hout. cbn [fst] in Hout.
  destruct (requests_get env p ip key (world s)) as [[resp | e] w']; [| discriminate].
  destruct (status_code resp =? 200); [| discriminate].
  destruct Hout as [_ Hkeys]. destruct (Hkeys d eq_refl) as [Hk Hzero].
  repeat split; auto.
Qed.

(** X2: whatever the payload, a report returned by an adapter has that
    adapter's fixed keys in their fixed order, carries the queried address
    under IP and the provider's name under Source, reports as the integer 0
    the signals the provider does not supply, and stems from a status-200
    answer. *)
Theorem adapter_report_shape :
  forall (World : Type) (env : collaborators World) (p : provider) (ip : string)
         (key : option string) (s s' : state World) (d : dict),
    api_function_map env p ip key s = (Ok (Some d), s') ->
    Dict.keys d = report_keys p
    /\ Dict.lookup "IP" d = Some (PStr ip)
    /\ Dict.lookup "Source" d = Some (PStr (provider_name p))
    /\ Forall (fun k => Dict.lookup k d = Some (PInt 0)) (silent_signals p)
    /\ exists resp,
         fst (requests_get env p ip key (world s)) = Ok resp /\ status_code resp = 200.
Proof.
  intros World env p ip key s s' d Hrun.
  destruct (adapter_shape World env p ip key s s' d Hrun) as [Hk [Hip [Hsrc Hzero]]].
  repeat split; auto.
  pose proof (adapter_outcome World env p ip key s) as Hout.
  rewrite Hrun in Hout. cbn [fst] in Hout.
  destruct (requests_get env p ip key (world s)) as [[resp | e] w']; [| discriminate].
  destruct (Z.eqb_spec (status_code resp) 200) as [Heq | Hne]; [| discriminate].
  now exists resp.
Qed.

Lemma adapter_report_shape_witness :
  Dict.keys Sample.vt_report = report_keys VirusTotal
  /\ Dict.lookup "IP" Sample.vt_report = Some (PStr "8.8.8.8")
  /\ Dict.lookup "Source" Sample.vt_report = Some (PStr (provider_name VirusTotal))
  /\ Forall (fun k => Dict.lookup k Sample.vt_report = Some (PInt 0))
            (silent_signals VirusTotal)
  /\ exists resp,
       fst (requests_get Sample.vt_env VirusTotal "8.8.8.8" (Some "k") (world Sample.start))
       = Ok resp
       /\ status_code resp = 200.
Proof.
  apply (adapter_report_shape unit Sample.vt_env VirusTotal "8.8.8.8" (Some "k")
           Sample.start
           {| world := tt; trace := [EvHttpGet VirusTotal "8.8.8.8" (Some "k")] |}
           Sample.vt_report).
  reflexivity.
Defined.

(** X3: the alert condition of a report depends on its provider's own signal
    only: on a VirusTotal report it is [Malicious > 0], on an AbuseIPDB report
    [Abuse Confidence > 0], and on an AlienVault OTX report it is false
    whatever the reputation; the risk label plays no part. *)
Theorem alert_condition_by_provider :
  forall (World : Type) (env : collaborators World) (p : provider) (ip : string)
         (key : option string) (s s' : state World) (d : dict) (label : pyval),
    api_function_map env p ip key s = (Ok (Some d), s') ->
    should_alert (Dict.set d "AI Risk" label)
    = match p with
      | VirusTotal => py_gt0 (Dict.get d "Malicious" (PInt 0))
      | AbuseIPDB => py_gt0 (Dict.get d "Abuse Confidence" (PInt 0))
      | AlienVaultOTX => Ok false
      end.
Proof.
  intros World env p ip key s s' d label Hrun.
  rewrite should_alert_ignores_label.
  pose proof (adapter_outcome World env p ip key s) as Hout.
  rewrite Hrun in Hout. cbn [fst] in Hout.
  destruct (requests_get env p ip key (world s)) as [[resp | e] w']; [| discriminate].
  destruct (status_code resp =? 200); [| discriminate].
  destruct Hout as [_ Hkeys]. destruct (Hkeys d eq_refl) as [_ Hzero].
  unfold should_alert, Dict.get.
  destruct p; cbn [silent_signals] in Hzero;
    repeat match goal with
           | H : Forall _ (_ :: _) |- _ => inversion H; subst; clear H
           end;
    repeat match goal with
           | H : Dict.lookup _ d = Some (PInt 0) |- _ => rewrite H; clear H
           end;
    cbn [py_gt0 Z.ltb Z.compare]; try reflexivity.
  destruct (Dict.lookup "Abuse Confidence" d) as [v |]; [| reflexivity].
  destruct v as [| [|] | z | f | | |]; cbn [py_gt0]; try reflexivity.
  - destruct (0 <? z); reflexivity.
  - destruct (PrimFloat.ltb 0 f); reflexivity.
Qed.

Lemma alert_condition_by_provider_witness :
  should_alert (Dict.set Sample.vt_report "AI Risk" (PStr "Low"))
  = py_gt0 (Dict.get Sample.vt_report "Malicious" (PInt 0)).
Proof.
  apply (alert_condition_by_provider unit Sample.vt_env VirusTotal "8.8.8.8" (Some "k")
           Sample.start
           {| world := tt; trace := [EvHttpGet VirusTotal "8.8.8.8" (Some "k")] |}
           Sample.vt_report (PStr "Low")).
  reflexivity.
Defined.

(** ** Hybrid fallback *)

Lemma http_requests_of_calls : forall (ip : string) (key : provider -> option string)
    (called : list provider),
  http_requests (map (fun p => EvHttpGet p ip (key p)) called)
  = map (fun p => (p, ip, key p)) called.
Proof.
  induction called as [| p called IH]; cbn; now rewrite ?IH.
Qed.

(** X4: a report returned in hybrid mode is, unchanged, the dictionary that
    the answering provider's adapter returned for the key in use: writing
    Source over it changes nothing, so hybrid mode gives what direct mode on
    that provider gives. *)
Theorem hybrid_returns_adapter_report_verbatim :
  forall (World : Type) (env : collaborators World) (ip : string)
         (manual_key : option string) (s s' : state World) (r : dict),
    get_hybrid_report env ip manual_key s = (Ok (Some r), s') ->
    exists p s_p,
      key_truthy (key_to_use env manual_key p) = true
      /\ api_function_map env p ip (key_to_use env manual_key p) s_p = (Ok (Some r), s').
Proof.
  intros World env ip manual_key s s' r Hrun.
  destruct (hybrid_loop_spec World env ip manual_key functions s)
    as [called [res [s1 [Hloop [_ [[later Hprefix] Hres]]]]]].
  unfold get_hybrid_report in Hrun. rewrite Hloop in Hrun. injection Hrun as -> ->.
  destruct Hres as [earlier [p [r0 [s_p [Hc [_ [Hcall [_ Hr]]]]]]]].
  exists p, s_p. split.
  - assert (Hin : In p (resolvable env manual_key functions)).
    { rewrite Hprefix, Hc. apply in_or_app. left. apply in_or_app. right. now left. }
    apply filter_In in Hin. apply Hin.
  - destruct (adapter_effect World env p ip (key_to_use env manual_key p) s_p)
      as [r' [Hrun' Hshape]].
    rewrite Hcall in Hrun'. injection Hrun' as <- _.
    destruct (Hshape r0 eq_refl) as [_ [_ Hsrc]].
    rewrite Hr, (set_same_value r0 "Source" _ Hsrc). exact Hcall.
Qed.

Lemma hybrid_returns_adapter_report_verbatim_witness :
  exists p s_p,
    key_truthy (key_to_use Sample.fallback_env (Some "k") p) = true
    /\ api_function_map Sample.fallback_env p "1.2.3.4"
         (key_to_use Sample.fallback_env (Some "k") p) s_p
       = (Ok (Some Scenario.abuse_report), Scenario.after_fallback).
Proof.
  apply (hybrid_returns_adapter_report_verbatim unit Sample.fallback_env "1.2.3.4"
           (Some "k") Sample.start Scenario.after_fallback Scenario.abuse_report).
  reflexivity.
Defined.

(** X5: in hybrid mode a manual key is the key of every request: each
    provider tried receives it, the environment variables are not used, and
    VirusTotal is always the first provider tried. *)
Theorem hybrid_manual_key_goes_to_every_provider :
  forall (World : Type) (env : collaborators World) (ip : string) (k : string)
         (s : state World),
    str_truthy k = true ->
    exists called later,
      http_requests (trace (snd (get_hybrid_report env ip (Some k) s)))
      = http_requests (trace s) ++ map (fun p => (p, ip, Some k)) called
      /\ [VirusTotal; AbuseIPDB; AlienVaultOTX] = called ++ later
      /\ exists rest, called = VirusTotal :: rest.
Proof.
  intros World env ip k s Hk.
  destruct (hybrid_loop_spec World env ip (Some k) functions s)
    as [called [res [s1 [Hloop [Htrace [[later Hprefix] Hres]]]]]].
  assert (Hkey : forall p, key_to_use env (Some k) p = Some k).
  { intros p. unfold key_to_use. cbn [key_truthy]. now rewrite Hk. }
  assert (Hall : resolvable env (Some k) functions = [VirusTotal; AbuseIPDB; AlienVaultOTX]).
  { unfold resolvable, functions. cbn [filter]. rewrite !Hkey. cbn [key_truthy].
    now rewrite Hk. }
  exists called, later. unfold get_hybrid_report. rewrite Hloop. cbn [snd].
  split; [| split].
  - rewrite Htrace, http_requests_app, http_requests_of_calls.
    f_equal. apply map_ext. intros p. now rewrite Hkey.
  - now rewrite <- Hall.
  - rewrite Hall in Hprefix.
    destruct called as [| p rest].
    + exfalso. destruct res as [r |].
      * destruct Hres as [earlier [p [r0 [s_p [Hc _]]]]]. destruct earlier; discriminate.
      * destruct Hres as [Hc _]. rewrite Hall in Hc. discriminate.
    + injection Hprefix as <- _. now exists rest.
Qed.

Lemma hybrid_manual_key_goes_to_every_provider_witness :
  exists called later,
    http_requests
      (trace (snd (get_hybrid_report Sample.fallback_env "1.2.3.4" (Some "k") Sample.start)))
    = http_requests (trace Sample.start) ++ map (fun p => (p, "1.2.3.4", Some "k")) called
    /\ [VirusTotal; AbuseIPDB; AlienVaultOTX] = called ++ later
    /\ exists rest, called = VirusTotal :: rest.
Proof.
  apply (hybrid_manual_key_goes_to_every_provider unit Sample.fallback_env "1.2.3.4" "k"
           Sample.start).
  reflexivity.
Defined.

(** ** Alert block *)

Lemma saved_reports_app : forall tr1 tr2 : list event,
  saved_reports (tr1 ++ tr2) = saved_reports tr1 ++ saved_reports tr2.
Proof.
  induction tr1 as [| ev tr1 IH]; intros tr2; [reflexivity |].
  destruct ev; cbn; now rewrite IH.
Qed.

Lemma emails_sent_app : forall tr1 tr2 : list event,
  emails_sent (tr1 ++ tr2) = emails_sent tr1 ++ emails_sent tr2.
Proof.
  induction tr1 as [| ev tr1 IH]; intros tr2; [reflexivity |].
  destruct ev; cbn; now rewrite IH.
Qed.

Lemma frames_classified_app : forall tr1 tr2 : list event,
  frames_classified (tr1 ++ tr2) = frames_classified tr1 ++ frames_classified tr2.
Proof.
  induction tr1 as [| ev tr1 IH]; intros tr2; [reflexivity |].
  destruct ev; cbn; now rewrite IH.
Qed.

Lemma alert_trace :
  forall (World : Type) (env : collaborators World) (report : dict) (ip : pyval)
         (s : state World),
    Dict.lookup "IP" report = Some ip ->
    exists s' evs,
      alert env report s = (Ok tt, s')
      /\ trace s' = trace s ++ EvCheckAlerts report :: evs
      /\ saved_reports evs = [] /\ frames_classified evs = [] /\ http_requests evs = []
      /\ (emails_sent evs = [] \/ emails_sent evs = [(ip, report)])
      /\ (emails_sent evs = [(ip, report)]
          <-> fst (check_alerts env report (world s)) = Ok tt
              /\ should_alert report = Ok true)
      /\ (In (EvStError ip) evs
          <-> (exists e, fst (check_alerts env report (world s)) = Raise e)
              \/ (fst (check_alerts env report (world s)) = Ok tt
                  /\ ((exists e, should_alert report = Raise e)
                      \/ (should_alert report = Ok true
                          /\ exists e,
                               fst (send_email_alert env ip report
                                      (snd (check_alerts env report (world s))))
                               = Raise e)))).
Proof.
  intros World env report ip s Hip.
  unfold alert, try_except, report_ip, py_subscript, bind, lift, emit, ret, call.
  rewrite Hip. cbn [world trace].
  destruct (check_alerts env report (world s)) as [[[] | e] w1]; cbn [fst snd world trace].
  - destruct (should_alert report) as [[|] | e]; cbn [world trace].
    + destruct (send_email_alert env ip report w1) as [[[] | e] w2]; cbn [fst world trace].
      * eexists. exists [EvStSuccess ip; EvSendEmail ip report; EvPrint (AlertSentLine ip)].
        split; [reflexivity |]. cbn [trace]. rewrite <- !app_assoc. cbn.
        repeat split; auto.
        -- intros [H | [H | [H | []]]]; discriminate.
        -- intros [[e H] | [_ [[e H] | [_ [e H]]]]]; discriminate.
      * eexists. exists [EvStSuccess ip; EvSendEmail ip report; EvStError ip;
                         EvPrint (AlertFailedLine ip e)].
        split; [reflexivity |]. cbn [trace]. rewrite <- !app_assoc. cbn.
        repeat split; auto.
        intros _. right. split; [reflexivity |]. right. split; [reflexivity |]. now exists e.
    + eexists. exists []. split; [reflexivity |]. cbn.
      repeat split; auto; try discriminate.
      * intros [_ H]; discriminate.
      * intros [].
      * intros [[e H] | [_ [[e H] | [H _]]]]; discriminate.
    + eexists. exists [EvStError ip; EvPrint (AlertFailedLine ip e)].
      split; [reflexivity |]. cbn [trace]. rewrite <- !app_assoc. cbn.
      repeat split; auto; try discriminate.
      * intros [_ H]; discriminate.
      * intros _. right. split; [reflexivity |]. left. now exists e.
  - eexists. exists [EvStError ip; EvPrint (AlertFailedLine ip e)].
    split; [reflexivity |]. cbn [trace]. rewrite <- !app_assoc. cbn.
    repeat split; auto; try discriminate.
    + intros [H _]; discriminate.
    + intros _. left. now exists e.
Qed.

(** X6: on a report that has an IP the alert block never raises, whatever
    [check_alerts] and [send_email_alert] do. It calls [send_email_alert] at
    most once, and exactly when [check_alerts] returned and the condition is
    true; and it shows the failure banner exactly when [check_alerts], the
    condition (a signal that is not a number) or the e-mail raised. *)
Theorem alert_block_contains_failures :
  forall (World : Type) (env : collaborators World) (report : dict) (ip : pyval)
         (s : state World),
    Dict.lookup "IP" report = Some ip ->
    exists s' evs,
      alert env report s = (Ok tt, s')
      /\ trace s' = trace s ++ EvCheckAlerts report :: evs
      /\ saved_reports evs = [] /\ frames_classified evs = [] /\ http_requests evs = []
      /\ (emails_sent evs = [] \/ emails_sent evs = [(ip, report)])
      /\ (emails_sent evs = [(ip, report)]
          <-> fst (check_alerts env report (world s)) = Ok tt
              /\ should_alert report = Ok true)
      /\ (In (EvStError ip) evs
          <-> (exists e, fst (check_alerts env report (world s)) = Raise e)
              \/ (fst (check_alerts env report (world s)) = Ok tt
                  /\ ((exists e, should_alert report = Raise e)
                      \/ (should_alert report = Ok true
                          /\ exists e,
                               fst (send_email_alert env ip report
                                      (snd (check_alerts env report (world s))))
                               = Raise e)))).
Proof.
  intros World env report ip s Hip.
  destruct (alert_trace World env report ip s Hip) as [s' [evs Hblock]].
  exists s', evs. exact Hblock.
Qed.

Lemma alert_block_contains_failures_witness :
  exists s' evs,
    alert Sample.vt_env Sample.vt_report Sample.start = (Ok tt, s')
    /\ trace s' = trace Sample.start ++ EvCheckAlerts Sample.vt_report :: evs
    /\ emails_sent evs = [(PStr "8.8.8.8", Sample.vt_report)].
Proof.
  destruct (alert_block_contains_failures unit Sample.vt_env Sample.vt_report
              (PStr "8.8.8.8") Sample.start eq_refl)
    as [s' [evs [Hrun [Htrace [_ [_ [_ [_ [Hmail _]]]]]]]]].
  exists s', evs. split; [exact Hrun |]. split; [exact Htrace |].
  apply Hmail. split; reflexivity.
Defined.

(** ** One address *)

Lemma requests_only : forall reqs : list (provider * string * option string),
  http_requests (map req_event reqs) = reqs
  /\ saved_reports (map req_event reqs) = []
  /\ frames_classified (map req_event reqs) = []
  /\ emails_sent (map req_event reqs) = [].
Proof.
  induction reqs as [| [[p ip] k] reqs [IH1 [IH2 [IH3 IH4]]]]; cbn; [auto |].
  rewrite IH1. auto.
Qed.

Lemma resolve_trace : forall (World : Type) (env : collaborators World)
    (api_choice : choice) (user_api_key : string) (ip : string) (s : state World),
  exists fetched s1 reqs,
    resolve env api_choice user_api_key ip s = (fetched, s1)
    /\ trace s1 = trace s ++ map req_event reqs
    /\ requests_allowed env api_choice user_api_key ip reqs
    /\ forall d, fetched = Ok (Some d) ->
         exists p, selected api_choice p /\ report_of p ip d.
Proof.
  intros World env api_choice user_api_key ip s. unfold resolve.
  destruct api_choice as [| q].
  - destruct (hybrid_loop_spec World env ip (Some user_api_key) functions s)
      as [called [res [s1 [Hloop [Htrace [[later Hprefix] Hres]]]]]].
    exists (Ok res), s1,
      (map (fun p => (p, ip, key_to_use env (Some user_api_key) p)) called).
    split; [exact Hloop |]. split; [| split].
    + rewrite Htrace, map_map. reflexivity.
    + exists called, later. auto.
    + intros d Hd. injection Hd as ->.
      destruct Hres as [earlier [p [r0 [s_p [_ [_ [Hcall [_ Hr]]]]]]]].
      destruct (adapter_shape World env p ip _ s_p s1 r0 Hcall)
        as [Hk [Hip [Hsrc Hzero]]].
      rewrite (set_same_value r0 "Source" _ Hsrc) in Hr. subst d.
      exists p. repeat split; auto.
  - match goal with |- context [api_function_map env q ip ?k s] =>
      destruct (adapter_effect World env q ip k s) as [r [Hrun _]];
      exists r, {| world := snd (requests_get env q ip k (world s));
                   trace := trace s ++ [EvHttpGet q ip k] |}, [(q, ip, k)]
    end.
    split; [exact Hrun |]. split; [reflexivity |]. split; [reflexivity |].
    intros d Hd. subst r. exists q. split; [reflexivity |].
    match type of Hrun with api_function_map env q ip ?k s = (_, ?s1) =>
      destruct (adapter_shape World env q ip k s s1 d Hrun)
        as [Hk [Hip [Hsrc Hzero]]] end.
    repeat split; auto.
Qed.

Lemma process_ip_block : forall (World : Type) (env : collaborators World)
    (api_choice : choice) (user_api_key : string) (ip : string) (s : state World),
  exists outcome s' evs,
    (forall acc, process_ip env api_choice user_api_key ip acc s
                 = (match outcome with
                    | Ok added => Ok (acc ++ added)
                    | Raise e => Raise e
                    end, s'))
    /\ trace s' = trace s ++ evs
    /\ contribution env api_choice user_api_key ip
         (match outcome with Ok added => added | Raise _ => [] end) evs.
Proof.
  intros World env api_choice user_api_key ip s.
  destruct (process_ip_contribution World env api_choice user_api_key ip [] s)
    as [outcome [s' [Hall _]]].
  destruct (resolve_trace World env api_choice user_api_key ip s)
    as [fetched [s1 [reqs [Hres [Htr1 [Hreq Hshape]]]]]].
  destruct (requests_only reqs) as [Hq1 [Hq2 [Hq3 Hq4]]].
  destruct (process_ip_cases World env api_choice user_api_key ip [] s)
    as [fetched' [s1' [Hres' Hcase]]].
  rewrite Hres in Hres'. injection Hres' as <- <-.
  exists outcome, s'. specialize (Hall []) as Hnil.
  destruct fetched as [[report |] | e].
  - destruct Hcase as [label [s2 [s3 [evs0 [Hcl [Hal [_ [_ [Hip Hrun]]]]]]]]].
    destruct (Hshape report eq_refl) as [p [Hsel Hrep]].
    set (labelled := Dict.set report "AI Risk" label) in *.
    destruct (alert_trace World env labelled (PStr ip) s2 Hip)
      as [s3' [evs [Hal' [Htr3 [Hs [Hf [Hh [Hmail [Hiff _]]]]]]]]].
    rewrite Hal in Hal'. injection Hal' as <-.
    rewrite classify_effect in Hcl. injection Hcl as _ Hs2.
    rewrite Hrun in Hnil. injection Hnil as Hout Hs'.
    exists (map req_event reqs
            ++ EvPredict (extract report) :: EvCheckAlerts labelled :: evs
            ++ [EvSaveReport labelled]).
    split; [exact Hall |]. split.
    + rewrite <- Hs'. cbn [trace]. rewrite Htr3, <- Hs2. cbn [trace].
      rewrite Htr1, <- !app_assoc. reflexivity.
    + apply contributes_report with (p := p) (report := report) (label := label);
        fold labelled.
      * rewrite http_requests_app, Hq1. cbn. rewrite http_requests_app, Hh. cbn.
        now rewrite app_nil_r.
      * exact Hsel.
      * exact Hrep.
      * rewrite saved_reports_app, Hq2. cbn. rewrite saved_reports_app, Hs. reflexivity.
      * rewrite frames_classified_app, Hq3. cbn. rewrite frames_classified_app, Hf.
        reflexivity.
      * rewrite emails_sent_app, Hq4. cbn. rewrite emails_sent_app. cbn.
        rewrite app_nil_r.
        destruct Hmail as [Hm | Hm]; [now left | right].
        split; [exact Hm |]. now apply Hiff.
      * destruct outcome as [added |]; [| now left].
        destruct (fst (save_report env labelled (world s3))); [| discriminate].
        injection Hout as <-. now right.
  - rewrite Hcase in Hnil. injection Hnil as Hout Hs'.
    exists (map req_event reqs). split; [exact Hall |].
    split; [now rewrite <- Hs' |].
    destruct outcome as [added |]; [| discriminate].
    injection Hout as <-. constructor; auto. now rewrite Hq1.
  - rewrite Hcase in Hnil. injection Hnil as Hout Hs'.
    exists (map req_event reqs). split; [exact Hall |].
    split; [now rewrite <- Hs' |].
    destruct outcome as [added |]; [discriminate |].
    constructor; auto. now rewrite Hq1.
Qed.

(** ** The whole run *)

Lemma contribution_print : forall (World : Type) (env : collaborators World)
    (api_choice : choice) (user_api_key : string) (ip : string)
    (added : list dict) (evs : list event) (l : log_line),
  contribution env api_choice user_api_key ip added evs ->
  contribution env api_choice user_api_key ip added (evs ++ [EvPrint l]).
Proof.
  intros World env api_choice user_api_key ip added evs l H.
  assert (Hh : http_requests (evs ++ [EvPrint l]) = http_requests evs)
    by (rewrite http_requests_app; apply app_nil_r).
  assert (Hs : saved_reports (evs ++ [EvPrint l]) = saved_reports evs)
    by (rewrite saved_reports_app; apply app_nil_r).
  assert (Hf : frames_classified (evs ++ [EvPrint l]) = frames_classified evs)
    by (rewrite frames_classified_app; apply app_nil_r).
  assert (Hm : emails_sent (evs ++ [EvPrint l]) = emails_sent evs)
    by (rewrite emails_sent_app; apply app_nil_r).
  destruct H as [evs H1 H2 H3 H4 | p report label added evs H1 H2 H3 H4 H5 H6 H7].
  - constructor; congruence.
  - apply contributes_report with (p := p) (report := report) (label := label);
      try congruence; auto.
Qed.

Lemma run_blocks : forall (World : Type) (env : collaborators World)
    (api_choice : choice) (user_api_key : string) (ip_list : list string)
    (s : state World),
  exists blocks s',
    (forall acc, run_loop env api_choice user_api_key ip_list acc s
                 = (Ok (acc ++ concat (map fst blocks)), s'))
    /\ trace s' = trace s ++ concat (map snd blocks)
    /\ Forall2 (fun ip b => contribution env api_choice user_api_key ip (fst b) (snd b))
               ip_list blocks.
Proof.
  intros World env api_choice user_api_key ip_list.
  induction ip_list as [| ip rest IH]; intros s.
  - exists [], s. cbn. repeat split; try constructor.
    + intros acc. now rewrite app_nil_r.
    + now rewrite app_nil_r.
  - destruct (process_ip_block World env api_choice user_api_key ip s)
      as [[added | e] [s1 [evs [Hstep [Htr Hblock]]]]].
    + destruct (IH s1) as [blocks [s' [Hrest [Htr' Hall]]]].
      exists ((added, evs) :: blocks), s'. cbn [map fst snd concat]. repeat split.
      * intros acc. rewrite run_loop_step, Hstep, Hrest. now rewrite app_assoc.
      * rewrite Htr', Htr. now rewrite app_assoc.
      * now constructor.
    + destruct (IH {| world := world s1;
                      trace := trace s1 ++ [EvPrint (ProcessingErrorLine ip e)] |})
        as [blocks [s' [Hrest [Htr' Hall]]]].
      exists (([], evs ++ [EvPrint (ProcessingErrorLine ip e)]) :: blocks), s'.
      cbn [map fst snd concat]. repeat split.
      * intros acc. rewrite run_loop_step, Hstep. apply Hrest.
      * rewrite Htr'. cbn [trace]. rewrite Htr. now rewrite !app_assoc.
      * constructor; [| exact Hall]. now apply contribution_print.
Qed.

(** X7: in direct mode a run makes exactly one request per input address,
    in input order, repeated addresses included, each to the selected
    provider and with the same key: the manual key when there is one, the
    provider's environment variable otherwise. *)
Theorem direct_run_one_request_per_address :
  forall (World : Type) (env : collaborators World) (p : provider)
         (user_api_key : string) (ip_list : list string) (s : state World),
    http_requests (trace (snd (run_analysis env (Single p) user_api_key ip_list s)))
    = http_requests (trace s)
      ++ map (fun ip => (p, ip, if str_truthy user_api_key then Some user_api_key
                                else getenv env (api_key_env_map p)))
             ip_list.
Proof.
  intros World env p user_api_key ip_list s.
  destruct (run_blocks World env (Single p) user_api_key ip_list s)
    as [blocks [s' [Hrun [Htr Hall]]]].
  unfold run_analysis. rewrite (Hrun []). cbn [snd].
  rewrite Htr, http_requests_app. f_equal.
  clear Hrun Htr. induction Hall as [| ip b ips blocks Hb _ IH]; [reflexivity |].
  cbn [map concat]. rewrite http_requests_app, IH. cbn [app].
  assert (Hreq : requests_allowed env (Single p) user_api_key ip (http_requests (snd b)))
    by (destruct Hb; assumption).
  cbn [requests_allowed] in Hreq. now rewrite Hreq.
Qed.






Lemma lookup_outside_keys : forall (d : dict) (k : string),
  ~ In k (Dict.keys d) -> Dict.lookup k d = None.
Proof.
  induction d as [| [k' v] rest IH]; intros k Hk; [reflexivity |].
  cbn in *. destruct (String.eqb_spec k k') as [-> | _].
  - exfalso. apply Hk. now left.
  - apply IH. intros H. apply Hk. now right.
Qed.

Lemma labelled_report_shape : forall (p : provider) (ip : string) (d : dict)
    (label : pyval),
  report_of p ip d ->
  Dict.keys (Dict.set d "AI Risk" label) = report_keys p ++ ["AI Risk"]
  /\ Dict.lookup "IP" (Dict.set d "AI Risk" label) = Some (PStr ip)
  /\ Dict.lookup "Source" (Dict.set d "AI Risk" label) = Some (PStr (provider_name p))
  /\ Dict.lookup "AI Risk" (Dict.set d "AI Risk" label) = Some label
  /\ Forall (fun k => Dict.lookup k (Dict.set d "AI Risk" label) = Some (PInt 0))
            (silent_signals p).
Proof.
  intros p ip d label [Hk [Hip [Hsrc Hzero]]].
  split; [| split; [| split; [| split]]].
  - rewrite keys_set_new, Hk; [reflexivity |].
    apply lookup_outside_keys. rewrite Hk.
    destruct p; cbn; intuition discriminate.
  - now rewrite lookup_set_other by discriminate.
  - now rewrite lookup_set_other by discriminate.
  - apply lookup_set_same.
  - apply Forall_forall. intros k Hin.
    rewrite Forall_forall in Hzero.
    rewrite lookup_set_other; [now apply Hzero |].
    intros ->. destruct p; cbn in Hin; intuition discriminate.
Qed.

Lemma run_reports_shape :
  forall (World : Type) (env : collaborators World) (api_choice : choice)
         (user_api_key : string) (ip_list : list string) (s : state World),
  exists out s',
    run_analysis env api_choice user_api_key ip_list s = (Ok out, s')
    /\ Forall (fun r =>
                 exists p ip,
                   In ip ip_list
                   /\ selected api_choice p
                   /\ Dict.keys r = report_keys p ++ ["AI Risk"]
                   /\ Dict.lookup "IP" r = Some (PStr ip)
                   /\ Dict.lookup "Source" r = Some (PStr (provider_name p))
                   /\ Dict.lookup "AI Risk" r <> None
                   /\ Forall (fun k => Dict.lookup k r = Some (PInt 0))
                             (silent_signals p))
              out.
Proof.
  intros World env api_choice user_api_key ip_list s.
  destruct (run_blocks World env api_choice user_api_key ip_list s)
    as [blocks [s' [Hrun [_ Hall]]]].
  exists (concat (map fst blocks)), s'. split; [apply (Hrun []) |].
  clear Hrun. induction Hall as [| ip b ips blocks Hb _ IH]; [constructor |].
  cbn [map concat]. apply Forall_app. split.
  - destruct Hb as [evs H1 H2 H3 H4 | p report label added evs H1 H2 H3 H4 H5 H6 H7];
      [constructor |].
    destruct H7 as [-> | ->]; constructor; [| constructor].
    destruct (labelled_report_shape p ip report label H3) as [Hk [Hip [Hsrc [Hl Hz]]]].
    exists p, ip. repeat split; auto; [now left | congruence].
  - eapply Forall_impl; [| exact IH].
    intros r [p [ip' [Hin H]]]. exists p, ip'. split; [now right | exact H].
Qed.

(** X10: every report of a run's result list is about one of the input
    addresses and has the keys of one provider's report followed by
    "AI Risk"; its Source names that provider, which in direct mode is the
    selected one; and the signals that provider does not supply are the
    integer 0. *)
Theorem result_reports_shape :
  forall (World : Type) (env : collaborators World) (api_choice : choice)
         (user_api_key : string) (ip_list : list string) (s : state World),
  exists out s',
    run_analysis env api_choice user_api_key ip_list s = (Ok out, s')
    /\ Forall (fun r =>
                 exists p ip,
                   In ip ip_list
                   /\ selected api_choice p
                   /\ Dict.keys r = report_keys p ++ ["AI Risk"]
                   /\ Dict.lookup "IP" r = Some (PStr ip)
                   /\ Dict.lookup "Source" r = Some (PStr (provider_name p))
                   /\ Dict.lookup "AI Risk" r <> None
                   /\ Forall (fun k => Dict.lookup k r = Some (PInt 0))
                             (silent_signals p))
              out.
Proof.
  intros World env api_choice user_api_key ip_list s.
  destruct (run_reports_shape World env api_choice user_api_key ip_list s)
    as [out [s' [Hrun Hshape]]].
  exists out, s'. split; [exact Hrun | exact Hshape].
Qed.



(** X12: once the coordinator has returned a report, only [save_report]
    decides whether it reaches the result list: the label is the model's
    answer or "Error", the alert block runs and never raises whatever
    [check_alerts] and [send_email_alert] do, and the labelled report is
    appended when [save_report] returns and dropped, with the exception of
    [save_report] raised, when it raises. *)
Theorem resolved_report_dropped_only_by_store :
  forall (World : Type) (env : collaborators World) (api_choice : choice)
         (user_api_key : string) (ip : string) (results : list dict)
         (s s1 : state World) (report : dict),
    resolve env api_choice user_api_key ip s = (Ok (Some report), s1) ->
    let label := match fst (rf_predict env (extract report) (world s1)) with
                 | Ok risk => risk
                 | Raise _ => PStr "Error"
                 end in
    let labelled := Dict.set report "AI Risk" label in
    exists s3 evs,
      trace s3 = trace s1 ++ EvPredict (extract report) :: EvCheckAlerts labelled :: evs
      /\ saved_reports evs = []
      /\ process_ip env api_choice user_api_key ip results s
         = (match fst (save_report env labelled (world s3)) with
            | Ok _ => Ok (results ++ [labelled])
            | Raise e => Raise e
            end,
            {| world := snd (save_report env labelled (world s3));
               trace := trace s3 ++ [EvSaveReport labelled] |}).
Proof.
  intros World env api_choice user_api_key ip results s s1 report Hres label labelled.
  destruct (process_ip_cases World env api_choice user_api_key ip results s)
    as [fetched [s1' [Hres' Hcase]]].
  rewrite Hres in Hres'. injection Hres' as <- <-.
  destruct Hcase as [label' [s2 [s3 [evs0 [Hcl [Hal [_ [_ [Hip Hrun]]]]]]]]].
  rewrite classify_effect in Hcl. injection Hcl as Hlab Hs2.
  fold label in Hlab. fold labelled in Hlab. rewrite <- Hlab in *.
  destruct (alert_trace World env labelled (PStr ip) s2 Hip)
    as [s3' [evs [Hal' [Htr [Hsaved _]]]]].
  rewrite Hal in Hal'. injection Hal' as <-.
  exists s3, evs. split; [| split; [exact Hsaved | exact Hrun]].
  rewrite Htr, <- Hs2. cbn [trace]. now rewrite <- app_assoc.
Qed.

Lemma resolved_report_dropped_only_by_store_witness :
  exists s',
    process_ip Scenario.mail_down_env (Single VirusTotal) "k" "8.8.8.8" [] Sample.start
    = (Ok [Dict.set Sample.vt_report "AI Risk" (PStr "High")], s').
Proof.
  pose proof (resolved_report_dropped_only_by_store unit Scenario.mail_down_env
                (Single VirusTotal) "k" "8.8.8.8" [] Sample.start
                {| world := tt; trace := [EvHttpGet VirusTotal "8.8.8.8" (Some "k")] |}
                Sample.vt_report eq_refl) as H.
  cbv zeta in H. destruct H as [s3 [evs [_ [_ Hrun]]]].
  eexists. exact Hrun.
Defined.

(** ** The input list *)

Arguments Text.is_linebreak : simpl never.
Arguments Text.is_space : simpl never.

Lemma all_chars_append : forall (P : ascii -> bool) (a b : string),
  all_chars P (String.append a b) = all_chars P a && all_chars P b.
Proof.
  induction a as [| c a IH]; intros b; cbn; [reflexivity |].
  now rewrite IH, andb_assoc.
Qed.

(** Induction two characters at a time, as [splitlines] reads CR LF. *)
Lemma string_pair_ind : forall P : string -> Prop,
  P EmptyString ->
  (forall c, P (String c EmptyString)) ->
  (forall c c' s, P s -> P (String c' s) -> P (String c (String c' s))) ->
  forall s, P s.
Proof.
  intros P H0 H1 H2 s.
  enough (H : P s /\ forall c, P (String c s)) by apply H.
  induction s as [| c' s [IHs IHc]]; split; auto.
Qed.

Lemma splitlines_from_no_linebreak : forall (s line : string),
  all_chars (fun c => negb (Text.is_linebreak c)) line = true ->
  Forall (fun l => all_chars (fun c => negb (Text.is_linebreak c)) l = true)
         (Text.splitlines_from line s).
Proof.
  induction s as [| c | c c' s IHs IHc] using string_pair_ind; intros line Hline.
  - cbn. destruct line; constructor; auto.
  - cbn. destruct (Text.is_linebreak c) eqn:Hc.
    + constructor; auto.
    + assert (Hl : all_chars (fun c => negb (Text.is_linebreak c))
                     (String.append line (String c EmptyString)) = true)
        by (rewrite all_chars_append, Hline; cbn; now rewrite Hc).
      destruct (String.append line (String c EmptyString)); constructor; auto.
  - cbn [Text.splitlines_from]. destruct (Text.is_linebreak c) eqn:Hc.
    + constructor; [exact Hline |].
      destruct ((Text.code c =? 13)%N && (Text.code c' =? 10)%N);
        [apply IHs | apply IHc]; reflexivity.
    + apply IHc. rewrite all_chars_append, Hline. cbn. now rewrite Hc.
Qed.

Lemma lstrip_all_chars : forall (P : ascii -> bool) (s : string),
  all_chars P s = true -> all_chars P (Text.lstrip s) = true.
Proof.
  induction s as [| c rest IH]; intros H; cbn in *; [reflexivity |].
  apply andb_true_iff in H. destruct H as [Hc Hrest].
  destruct (Text.is_space c); [auto |]. cbn. now rewrite Hc, Hrest.
Qed.

Lemma rstrip_all_chars : forall (P : ascii -> bool) (s : string),
  all_chars P s = true -> all_chars P (Text.rstrip s) = true.
Proof.
  induction s as [| c rest IH]; intros H; cbn in *; [reflexivity |].
  apply andb_true_iff in H. destruct H as [Hc Hrest].
  specialize (IH Hrest).
  destruct (Text.rstrip rest) as [| k kept].
  - destruct (Text.is_space c); cbn; [reflexivity | now rewrite Hc].
  - cbn [all_chars] in *. now rewrite Hc, IH.
Qed.

Lemma lstrip_first : forall s : string, not_space (first_char (Text.lstrip s)).
Proof.
  induction s as [| c rest IH]; cbn; [exact I |].
  destruct (Text.is_space c) eqn:Hc; [exact IH | exact Hc].
Qed.

Lemma rstrip_last : forall s : string, not_space (last_char (Text.rstrip s)).
Proof.
  induction s as [| c rest IH]; cbn [Text.rstrip]; [exact I |].
  destruct (Text.rstrip rest) as [| k kept].
  - destruct (Text.is_space c) eqn:Hc; [exact I | exact Hc].
  - exact IH.
Qed.

Lemma rstrip_first : forall s : string,
  not_space (first_char s) -> not_space (first_char (Text.rstrip s)).
Proof.
  intros [| c rest] H; cbn [Text.rstrip]; [exact I |].
  destruct (Text.rstrip rest) as [| k kept]; [| exact H].
  cbn in H. rewrite H. exact H.
Qed.

Lemma strip_clean : forall s : string,
  all_chars (fun c => negb (Text.is_linebreak c)) s = true ->
  str_truthy (Text.strip s) = true ->
  clean_entry (Text.strip s).
Proof.
  intros s Hs Hne. unfold clean_entry, Text.strip in *. repeat split.
  - intros H. rewrite H in Hne. discriminate.
  - apply rstrip_first, lstrip_first.
  - apply rstrip_last.
  - now apply rstrip_all_chars, lstrip_all_chars.
Qed.

Lemma Forall_firstn : forall (A : Type) (P : A -> Prop) (n : nat) (l : list A),
  Forall P l -> Forall P (firstn n l).
Proof.
  intros A P n l H. revert n.
  induction H as [| x l Hx _ IH]; intros [| n]; cbn; constructor; auto.
Qed.

Lemma stripped_lines_clean : forall lines : list string,
  Forall (fun l => all_chars (fun c => negb (Text.is_linebreak c)) l = true) lines ->
  Forall clean_entry (stripped_lines lines).
Proof.
  intros lines H. unfold stripped_lines.
  induction H as [| l lines Hl _ IH]; cbn; [constructor |].
  destruct (str_truthy (Text.strip l)) eqn:Hne; [| exact IH].
  cbn. constructor; [now apply strip_clean | exact IH].
Qed.

(** X13: whatever is typed or uploaded, every entry of the address list is
    non-empty, has no whitespace at its ends and contains no line boundary:
    blank lines and surrounding blanks never reach the pipeline. *)
Theorem ip_list_entries_are_clean :
  forall (ip_input : string) (uploaded_file : option (result string)) (limit : Z)
         (ip_list : list string),
    read_ip_list ip_input uploaded_file limit = Ok ip_list ->
    Forall clean_entry ip_list.
Proof.
  intros ip_input uploaded_file limit ip_list H. unfold read_ip_list in H.
  assert (Hslice : forall l, Forall clean_entry l -> Forall clean_entry (py_slice_to l limit)).
  { intros l Hl. unfold py_slice_to. destruct (0 <=? limit); now apply Forall_firstn. }
  destruct (str_truthy ip_input).
  - injection H as <-. apply Hslice, stripped_lines_clean.
    now apply splitlines_from_no_linebreak.
  - destruct uploaded_file as [[content | e] |]; try discriminate; injection H as <-.
    + apply Hslice, stripped_lines_clean. now apply splitlines_from_no_linebreak.
    + apply Hslice. constructor.
Qed.

Lemma ip_list_entries_are_clean_witness :
  Forall clean_entry ["8.8.8.8"; "1.1.1.1"].
Proof.
  apply (ip_list_entries_are_clean
           (String.append " 8.8.8.8 "
              (String.append crlf (String.append "   " (String.append newline "1.1.1.1"))))
           None 10 ["8.8.8.8"; "1.1.1.1"]).
  reflexivity.
Defined.

(** X14: the address list never holds more entries than the limit; a larger
    limit only lengthens it at the end; and text typed in the text area takes
    precedence: the uploaded file is then not read, so that a file that is
    not UTF-8 does no harm. *)
Theorem ip_list_limit_and_precedence :
  forall (ip_input : string) (uploaded_file : option (result string)) (limit : Z),
    (forall ip_list,
       0 <= limit ->
       read_ip_list ip_input uploaded_file limit = Ok ip_list ->
       Z.of_nat (length ip_list) <= limit)
    /\ (forall limit' ip_list ip_list',
          0 <= limit <= limit' ->
          read_ip_list ip_input uploaded_file limit = Ok ip_list ->
          read_ip_list ip_input uploaded_file limit' = Ok ip_list' ->
          ip_list = firstn (length ip_list) ip_list')
    /\ (str_truthy ip_input = true ->
        (exists ip_list, read_ip_list ip_input uploaded_file limit = Ok ip_list)
        /\ forall other, read_ip_list ip_input other limit
                         = read_ip_list ip_input uploaded_file limit).
Proof.
  intros ip_input uploaded_file limit. unfold read_ip_list.
  split; [| split].
  - intros ip_list Hlimit H.
    assert (Hcut : forall l : list string,
               Z.of_nat (length (py_slice_to l limit)) <= limit).
    { intros l. unfold py_slice_to.
      destruct (Z.leb_spec 0 limit); [| lia].
      pose proof (firstn_le_length (Z.to_nat limit) l). lia. }
    destruct (str_truthy ip_input); [injection H as <-; apply Hcut |].
    destruct uploaded_file as [[content | e] |]; try discriminate;
      injection H as <-; apply Hcut.
  - intros limit' ip_list ip_list' Hle H H'.
    assert (Hcut : forall l : list string,
               py_slice_to l limit
               = firstn (length (py_slice_to l limit)) (py_slice_to l limit')).
    { intros l. unfold py_slice_to.
      destruct (Z.leb_spec 0 limit); [| lia].
      destruct (Z.leb_spec 0 limit'); [| lia].
      rewrite length_firstn, firstn_firstn.
      assert (Hn : (Z.to_nat limit <= Z.to_nat limit')%nat) by lia.
      destruct (Nat.le_ge_cases (Z.to_nat limit) (length l)) as [Hl | Hl].
      - f_equal. lia.
      - rewrite (firstn_all2 l Hl).
        replace (Nat.min (Nat.min (Z.to_nat limit) (length l)) (Z.to_nat limit'))
          with (length l) by lia.
        symmetry. apply firstn_all. }
    destruct (str_truthy ip_input).
    + injection H as <-. injection H' as <-. apply Hcut.
    + destruct uploaded_file as [[content | e] |]; try discriminate;
        injection H as <-; injection H' as <-; apply Hcut.
  - intros ->. split; [eexists; reflexivity | reflexivity].
Qed.

Lemma append_empty_r : forall s : string, String.append s EmptyString = s.
Proof.
  induction s as [| c s IH]; cbn; [reflexivity | now rewrite IH].
Qed.

Lemma append_assoc : forall a b c : string,
  String.append (String.append a b) c = String.append a (String.append b c).
Proof.
  induction a as [| x a IH]; intros b c; cbn; [reflexivity | now rewrite IH].
Qed.

Lemma splitlines_from_append : forall (ip line more : string),
  all_chars (fun c => negb (Text.is_linebreak c)) ip = true ->
  Text.splitlines_from line (String.append ip more)
  = Text.splitlines_from (String.append line ip) more.
Proof.
  induction ip as [| c ip IH]; intros line more H.
  - cbn. now rewrite append_empty_r.
  - cbn in H. apply andb_true_iff in H. destruct H as [Hc Hip].
    apply negb_true_iff in Hc.
    cbn [String.append Text.splitlines_from]. rewrite Hc, (IH _ _ Hip), append_assoc.
    reflexivity.
Qed.

Lemma splitlines_from_separator : forall (sep line more : string),
  sep = newline \/ sep = crlf ->
  Text.splitlines_from line (String.append sep more)
  = line :: Text.splitlines_from EmptyString more.
Proof.
  intros sep line more [-> | ->].
  - destruct more; reflexivity.
  - reflexivity.
Qed.

Lemma lstrip_id : forall s : string, not_space (first_char s) -> Text.lstrip s = s.
Proof.
  intros [| c rest] H; cbn in *; [reflexivity | now rewrite H].
Qed.

Lemma rstrip_id : forall s : string, not_space (last_char s) -> Text.rstrip s = s.
Proof.
  induction s as [| c rest IH]; intros H; [reflexivity |].
  cbn [Text.rstrip]. destruct rest as [| c' rest'].
  - cbn in *. now rewrite H.
  - rewrite (IH H). reflexivity.
Qed.

Lemma strip_clean_id : forall ip : string, clean_entry ip ->
  Text.strip ip = ip /\ str_truthy ip = true.
Proof.
  intros ip [Hne [Hfirst [Hlast _]]]. unfold Text.strip.
  rewrite (lstrip_id ip Hfirst), (rstrip_id ip Hlast).
  split; [reflexivity |]. destruct ip; [contradiction | reflexivity].
Qed.

Lemma splitlines_join : forall (sep : string) (ips : list string),
  sep = newline \/ sep = crlf ->
  Forall clean_entry ips ->
  Text.splitlines (Text.join sep ips) = ips.
Proof.
  intros sep ips Hsep H. unfold Text.splitlines.
  induction H as [| ip rest Hip Hrest IH]; [reflexivity |].
  destruct Hip as [Hne [_ [_ Hchars]]].
  destruct rest as [| ip' rest'].
  - cbn [Text.join]. rewrite <- (append_empty_r ip) at 1.
    rewrite (splitlines_from_append ip _ _ Hchars). cbn.
    destruct ip; [contradiction | reflexivity].
  - change (Text.join sep (ip :: ip' :: rest'))
      with (String.append ip (String.append sep (Text.join sep (ip' :: rest')))).
    rewrite (splitlines_from_append ip _ _ Hchars). cbn [String.append].
    rewrite (splitlines_from_separator sep ip _ Hsep), IH. reflexivity.
Qed.

Lemma stripped_lines_id : forall ips : list string,
  Forall clean_entry ips -> stripped_lines ips = ips.
Proof.
  intros ips H. unfold stripped_lines.
  induction H as [| ip rest Hip _ IH]; [reflexivity |].
  destruct (strip_clean_id ip Hip) as [Hs Ht].
  cbn. rewrite Hs, Ht. cbn. rewrite Hs. now f_equal.
Qed.

(** X15: addresses typed one per line come back as they were typed: for a
    non-empty list of clean entries that fits the limit, joined by LF or by
    CR LF, the address list is that list. *)
Theorem ip_list_round_trip :
  forall (sep : string) (ips : list string) (uploaded_file : option (result string))
         (limit : Z),
    sep = newline \/ sep = crlf ->
    ips <> [] ->
    Forall clean_entry ips ->
    Z.of_nat (length ips) <= limit ->
    read_ip_list (Text.join sep ips) uploaded_file limit = Ok ips.
Proof.
  intros sep ips uploaded_file limit Hsep Hne Hclean Hlimit.
  unfold read_ip_list.
  assert (Htruthy : str_truthy (Text.join sep ips) = true).
  { destruct Hclean as [| ip rest Hip _]; [contradiction |].
    destruct Hip as [Hip _]. destruct ip; [contradiction |].
    destruct rest; reflexivity. }
  rewrite Htruthy, (splitlines_join sep ips Hsep Hclean), (stripped_lines_id ips Hclean).
  unfold py_slice_to. destruct (Z.leb_spec 0 limit); [| lia].
  f_equal. apply firstn_all2. lia.
Qed.

Lemma ip_list_round_trip_witness :
  read_ip_list (Text.join crlf ["8.8.8.8"; "1.1.1.1"; "10.0.0.1"]) None 10
  = Ok ["8.8.8.8"; "1.1.1.1"; "10.0.0.1"].
Proof.
  apply (ip_list_round_trip crlf ["8.8.8.8"; "1.1.1.1"; "10.0.0.1"] None 10).
  - now right.
  - discriminate.
  - repeat constructor; discriminate.
  - cbn. lia.
Defined.

(** ** The session flag *)

Lemma session_step_keeps_true : forall (ss : dict) (ev : session_event),
  Dict.lookup "fetch_triggered" ss = Some (PBool true) ->
  Dict.lookup "fetch_triggered" (session_step ss ev) = Some (PBool true).
Proof.
  intros ss [|] H; cbn [session_step].
  - unfold init_session. now rewrite H.
  - apply lookup_set_same.
Qed.

Lemma session_step_keeps_flag : forall (ss : dict) (ev : session_event),
  Dict.lookup "fetch_triggered" ss <> None ->
  Dict.lookup "fetch_triggered" (session_step ss ev) <> None.
Proof.
  intros ss [|] H; cbn [session_step].
  - unfold init_session. destruct (Dict.lookup "fetch_triggered" ss) eqn:E; [| contradiction].
    now rewrite E.
  - unfold trigger_fetch. rewrite lookup_set_same. discriminate.
Qed.

(** X16: the fetch flag is a latch. After a press of the button it reads
    true however many script runs and presses follow, since nothing resets
    it; once the script has run, reading it never fails; and before any
    press it reads false. *)
Theorem fetch_flag_latches :
  forall (session_state : dict),
    (forall before after,
       fetch_triggered
         (fold_left session_step (before ++ ButtonPress :: after) session_state)
       = Ok true)
    /\ (forall evs,
          exists b,
            fetch_triggered (fold_left session_step (ScriptRun :: evs) session_state)
            = Ok b)
    /\ (forall n,
          fetch_triggered (fold_left session_step (repeat ScriptRun (S n)) [])
          = Ok false).
Proof.
  intros session_state. split; [| split].
  - intros before after. rewrite fold_left_app. cbn [fold_left session_step].
    set (pressed := trigger_fetch (fold_left session_step before session_state)).
    assert (Hp : Dict.lookup "fetch_triggered" pressed = Some (PBool true))
      by apply lookup_set_same.
    clearbody pressed. revert pressed Hp.
    induction after as [| ev after IH]; intros ss Hp; cbn [fold_left].
    + unfold fetch_triggered. now rewrite Hp.
    + apply IH. now apply session_step_keeps_true.
  - intros evs. cbn [fold_left session_step].
    assert (Hp : Dict.lookup "fetch_triggered" (init_session session_state) <> None).
    { unfold init_session.
      destruct (Dict.lookup "fetch_triggered" session_state) eqn:E.
      - rewrite E. discriminate.
      - rewrite lookup_set_same. discriminate. }
    revert Hp. generalize (init_session session_state).
    induction evs as [| ev evs IH]; intros ss Hp; cbn [fold_left].
    + unfold fetch_triggered.
      destruct (Dict.lookup "fetch_triggered" ss) as [v |]; [| contradiction].
      now exists (py_truthy v).
    + apply IH. now apply session_step_keeps_flag.
  - intros n. cbn [repeat fold_left session_step].
    change (init_session []) with [("fetch_triggered", PBool false)].
    induction n as [| n IH]; [reflexivity | exact IH].
Qed.

(** ** CSV export *)

Lemma mem_In : forall (k : string) (l : list string), mem k l = true <-> In k l.
Proof.
  intros k l. unfold mem. rewrite existsb_exists. split.
  - intros [x [Hin Heq]]. apply String.eqb_eq in Heq. now subst.
  - intros Hin. exists k. split; [exact Hin | apply String.eqb_refl].
Qed.

Lemma dict_to_list_spec : forall (fieldnames : list string) (rowdict : dict),
  (incl (Dict.keys rowdict) fieldnames ->
   dict_to_list fieldnames rowdict
   = Ok (map (fun key => Dict.get rowdict key (PStr "")) fieldnames))
  /\ (~ incl (Dict.keys rowdict) fieldnames ->
      dict_to_list fieldnames rowdict = Raise ValueError).
Proof.
  intros fieldnames rowdict. unfold dict_to_list.
  destruct (existsb (fun k => negb (mem k fieldnames)) (Dict.keys rowdict)) eqn:E.
  - apply existsb_exists in E. destruct E as [k [Hin Hk]].
    apply negb_true_iff in Hk. split; [| reflexivity].
    intros Hincl. apply Hincl, mem_In in Hin. congruence.
  - split; [reflexivity |]. intros Hn. exfalso. apply Hn. intros k Hin.
    apply mem_In. destruct (mem k fieldnames) eqn:Hk; [reflexivity |].
    assert (Hex : existsb (fun k => negb (mem k fieldnames)) (Dict.keys rowdict) = true).
    { apply existsb_exists. exists k. split; [exact Hin | now rewrite Hk]. }
    congruence.
Qed.

Lemma writerows_spec : forall (fieldnames : list string) (rowdicts : list dict),
  (Forall (fun r => incl (Dict.keys r) fieldnames) rowdicts ->
   writerows fieldnames rowdicts
   = Ok (map (fun r => map (fun key => Dict.get r key (PStr "")) fieldnames) rowdicts))
  /\ (~ Forall (fun r => incl (Dict.keys r) fieldnames) rowdicts ->
      writerows fieldnames rowdicts = Raise ValueError).
Proof.
  intros fieldnames rowdicts.
  induction rowdicts as [| r rest [IHok IHbad]]; cbn [writerows map].
  - split; [reflexivity |]. intros H. exfalso. apply H. constructor.
  - destruct (dict_to_list_spec fieldnames r) as [Hok Hbad]. split.
    + intros H. inversion H as [| r' rest' Hr Hrest]; subst.
      now rewrite (Hok Hr), (IHok Hrest).
    + intros H.
      destruct (dict_to_list fieldnames r) as [row | e] eqn:E.
      * assert (Hr : incl (Dict.keys r) fieldnames).
        { unfold dict_to_list in E.
          destruct (existsb (fun k => negb (mem k fieldnames)) (Dict.keys r)) eqn:Ex;
            [discriminate |].
          intros k Hin. apply mem_In. destruct (mem k fieldnames) eqn:Hk; [reflexivity |].
          assert (Hex : existsb (fun k => negb (mem k fieldnames)) (Dict.keys r) = true).
          { apply existsb_exists. exists k. split; [exact Hin | now rewrite Hk]. }
          congruence. }
        rewrite IHbad; [reflexivity |].
        intros Hrest. apply H. now constructor.
      * unfold dict_to_list in E.
        destruct (existsb (fun k => negb (mem k fieldnames)) (Dict.keys r));
          [now injection E as <- | discriminate].
Qed.

Lemma keys_fit_iff : forall p q : provider,
  incl (report_keys q ++ ["AI Risk"]) (report_keys p ++ ["AI Risk"])
  <-> q = p \/ q = AlienVaultOTX.
Proof.
  intros p q. split.
  - intros H. destruct p, q; auto; exfalso.
    + assert (Hin : In "ISP" (report_keys VirusTotal ++ ["AI Risk"]))
        by (apply H; cbn; auto 10).
      cbn in Hin. intuition discriminate.
    + assert (Hin : In "ASN" (report_keys AbuseIPDB ++ ["AI Risk"]))
        by (apply H; cbn; auto 10).
      cbn in Hin. intuition discriminate.
    + assert (Hin : In "ASN" (report_keys AlienVaultOTX ++ ["AI Risk"]))
        by (apply H; cbn; auto 10).
      cbn in Hin. intuition discriminate.
    + assert (Hin : In "ISP" (report_keys AlienVaultOTX ++ ["AI Risk"]))
        by (apply H; cbn; auto 10).
      cbn in Hin. intuition discriminate.
  - intros [-> | ->]; [apply incl_refl |].
    destruct p; intros k Hin; cbn in *; intuition.
Qed.

Lemma provider_name_inj : forall p q : provider,
  provider_name p = provider_name q -> p = q.
Proof.
  intros [] []; cbn; intros H; try reflexivity; discriminate.
Qed.

Lemma render_after_charts : forall (World : Type) (d : dashboard World)
    (results : list dict) (w w1 : World),
  draw_charts d results w = (Ok tt, w1) ->
  render_visualizations d results w
  = match csv_export results with
    | Ok table => publish d table w1
    | Raise e => (Raise e, w1)
    end.
Proof.
  intros World d results w w1 H. unfold render_visualizations, wbind at 1.
  rewrite H. unfold wbind, wlift. destruct (csv_export results); reflexivity.
Qed.

(** X17: [render_visualizations] builds the frame and draws the charts
    first; when that code raises, the exception leaves the function and nothing is exported. Once
    the charts are drawn, the CSV table takes its columns from the first
    report: when no later report has a key the first one lacks, the download
    button receives the first report's keys as header and, for every report,
    the value of each of those keys, the empty string standing for a missing
    one; when a later report has an extra key the function raises ValueError.
    On an empty list it raises IndexError. *)
Theorem render_csv_needs_keys_of_first :
  forall (World : Type) (d : dashboard World),
    (forall w w1,
       frame d [] w = (Ok tt, w1) ->
       render_visualizations d [] w = (Raise IndexError, w1))
    /\ (forall results w e w1,
          draw_charts d results w = (Raise e, w1) ->
          render_visualizations d results w = (Raise e, w1))
    /\ (forall first rest w w1,
          draw_charts d (first :: rest) w = (Ok tt, w1) ->
          (Forall (fun r => incl (Dict.keys r) (Dict.keys first)) rest ->
           render_visualizations d (first :: rest) w
           = publish d
               (map PStr (Dict.keys first)
                :: map (fun r => map (fun key => Dict.get r key (PStr "")) (Dict.keys first))
                       (first :: rest))
               w1)
          /\ (~ Forall (fun r => incl (Dict.keys r) (Dict.keys first)) rest ->
              render_visualizations d (first :: rest) w = (Raise ValueError, w1))).
Proof.
  intros World d. split; [| split].
  - intros w w1 H. unfold render_visualizations, draw_charts, wbind. cbn [in_columns existsb].
    now rewrite H.
  - intros results w e w1 H. unfold render_visualizations, wbind at 1. now rewrite H.
  - intros first rest w w1 H.
    rewrite (render_after_charts World d (first :: rest) w w1 H). unfold csv_export.
    destruct (writerows_spec (Dict.keys first) (first :: rest)) as [Hok Hbad]. split.
    + intros Hfit. rewrite Hok; [reflexivity |].
      constructor; [apply incl_refl | exact Hfit].
    + intros Hfit. rewrite Hbad; [reflexivity |].
      intros Hall. apply Hfit. now inversion Hall.
Qed.

Lemma run_columns_exist : forall (p : provider) (first : dict) (rest : list dict),
  Dict.keys first = report_keys p ++ ["AI Risk"] ->
  in_columns "Country" (first :: rest) = true
  /\ in_columns "Malicious" (first :: rest) = true
  /\ in_columns "Suspicious" (first :: rest) = true.
Proof.
  intros p first rest Hk. unfold in_columns. cbn [existsb]. rewrite Hk.
  destruct p; repeat split; reflexivity.
Qed.

(** X18: on the non-empty result list of a run, [render_visualizations]
    builds the frame and draws both charts; once they are drawn, the CSV table reaches the
    download button when every later report has the Source of the first one
    or the Source "AlienVault OTX", and the function raises ValueError
    otherwise; in direct mode the table always reaches the button, with the
    selected provider's keys followed by "AI Risk" as header. *)
Theorem export_of_results_needs_matching_sources :
  forall (World : Type) (env : collaborators World) (api_choice : choice)
         (user_api_key : string) (ip_list : list string) (s : state World)
         (first : dict) (rest : list dict) (d : dashboard World) (w : World),
    fst (run_analysis env api_choice user_api_key ip_list s) = Ok (first :: rest) ->
    draw_charts d (first :: rest) w
    = wbind (frame d (first :: rest))
        (fun _ =>
           wbind (country_chart d (column "Country" (first :: rest)))
             (fun _ => threat_chart d (column "Malicious" (first :: rest))
                         (column "Suspicious" (first :: rest))))
        w
    /\ forall w1,
         draw_charts d (first :: rest) w = (Ok tt, w1) ->
         (Forall (fun r =>
                    Dict.lookup "Source" r = Dict.lookup "Source" first
                    \/ Dict.lookup "Source" r = Some (PStr "AlienVault OTX"))
                 rest ->
          render_visualizations d (first :: rest) w
          = publish d
              (map PStr (Dict.keys first)
               :: map (fun r => map (fun key => Dict.get r key (PStr "")) (Dict.keys first))
                      (first :: rest))
              w1)
         /\ (~ Forall (fun r =>
                         Dict.lookup "Source" r = Dict.lookup "Source" first
                         \/ Dict.lookup "Source" r = Some (PStr "AlienVault OTX"))
                      rest ->
             render_visualizations d (first :: rest) w = (Raise ValueError, w1))
         /\ (forall p, api_choice = Single p ->
               Dict.keys first = report_keys p ++ ["AI Risk"]
               /\ render_visualizations d (first :: rest) w
                  = publish d
                      (map PStr (report_keys p ++ ["AI Risk"])
                       :: map (fun r =>
                                 map (fun key => Dict.get r key (PStr ""))
                                     (report_keys p ++ ["AI Risk"]))
                              (first :: rest))
                      w1).
Proof.
  intros World env api_choice user_api_key ip_list s first rest d w Hout.
  destruct (run_reports_shape World env api_choice user_api_key ip_list s)
    as [out [s' [Hrun Hshape]]].
  rewrite Hrun in Hout. cbn [fst] in Hout. injection Hout as ->.
  inversion Hshape as [| r0 l0 Hfirst Hrest]; subst.
  destruct Hfirst as [pf [ipf [_ [Hself [Hkf [_ [Hsf _]]]]]]].
  destruct (run_columns_exist pf first rest Hkf) as [Hc [Hm Hs]].
  split.
  { unfold draw_charts. now rewrite Hc, Hm, Hs. }
  intros w1 Hcharts.
  assert (Hequiv :
    Forall (fun r => incl (Dict.keys r) (Dict.keys first)) rest
    <-> Forall (fun r =>
                  Dict.lookup "Source" r = Dict.lookup "Source" first
                  \/ Dict.lookup "Source" r = Some (PStr "AlienVault OTX"))
               rest).
  { rewrite !Forall_forall. rewrite Forall_forall in Hrest.
    split; intros H r Hin; specialize (H r Hin);
      destruct (Hrest r Hin) as [q [ipq [_ [_ [Hkq [_ [Hsq _]]]]]]];
      rewrite Hkq, Hkf, Hsq, Hsf in *.
    - apply keys_fit_iff in H. destruct H as [-> | ->]; auto.
    - apply keys_fit_iff. destruct H as [H | H]; injection H as H.
      + left. now apply provider_name_inj.
      + right. now apply (provider_name_inj q AlienVaultOTX). }
  rewrite (render_after_charts World d (first :: rest) w w1 Hcharts). unfold csv_export.
  destruct (writerows_spec (Dict.keys first) (first :: rest)) as [Hok Hbad].
  assert (Hrows : Forall (fun r => incl (Dict.keys r) (Dict.keys first)) rest ->
                  Forall (fun r => incl (Dict.keys r) (Dict.keys first)) (first :: rest))
    by (intros H; constructor; [apply incl_refl | exact H]).
  split; [| split].
  - intros H. apply Hequiv in H. now rewrite (Hok (Hrows H)).
  - intros H. rewrite Hbad; [reflexivity |].
    intros Hall. apply H, Hequiv. now inversion Hall.
  - intros p ->. cbn [selected] in Hself. subst pf. split; [exact Hkf |].
    assert (H : Forall (fun r => incl (Dict.keys r) (Dict.keys first)) rest).
    { apply Hequiv. rewrite Forall_forall in *. intros r Hin.
      destruct (Hrest r Hin) as [q [ipq [_ [Hq [_ [_ [Hsq _]]]]]]].
      cbn [selected] in Hq. subst q. left. congruence. }
    now rewrite (Hok (Hrows H)), Hkf.
Qed.

Lemma export_of_results_needs_matching_sources_witness :
  render_visualizations Screen.plain
    [Dict.set Sample.vt_report "AI Risk" (PStr "High")] tt
  = publish Screen.plain
      (map PStr (report_keys VirusTotal ++ ["AI Risk"])
       :: map (fun r =>
                 map (fun key => Dict.get r key (PStr ""))
                     (report_keys VirusTotal ++ ["AI Risk"]))
              [Dict.set Sample.vt_report "AI Risk" (PStr "High")])
      tt.
Proof.
  destruct (export_of_results_needs_matching_sources unit Sample.vt_env
              (Single VirusTotal) "k" ["8.8.8.8"] Sample.start
              (Dict.set Sample.vt_report "AI Risk" (PStr "High")) [] Screen.plain tt
              eq_refl)
    as [_ Hrender].
  destruct (Hrender tt eq_refl) as [_ [_ Hdirect]].
  exact (proj2 (Hdirect VirusTotal eq_refl)).
Defined.

(** Hybrid mode with a manual key: OTX answers for the first address,
    VirusTotal for the second; the charts are drawn and the export fails on
    the second report's ASN. *)
Example scenario_mixed_export_fails :
  let out := fst (run_analysis Scenario.mixed_env HybridFallback "k"
                    ["1.1.1.1"; "2.2.2.2"] Sample.start) in
  (exists otx vt,
     out = Ok [otx; vt]
     /\ Dict.lookup "Source" otx = Some (PStr "AlienVault OTX")
     /\ Dict.lookup "Source" vt = Some (PStr "VirusTotal")
     /\ render_visualizations Screen.plain [otx; vt] tt = (Raise ValueError, tt)).
Proof.
  cbv zeta. eexists. eexists. repeat split.
Qed.
